(** * HighLite Crypto Tracker: a shallow embedding of [src/app.js]

    The page script keeps three module variables ([assets],
    [displayAssets], [sortOrder]) and a handful of DOM nodes.  Every
    handler is embedded as a function on an explicit page state; arrays
    live in a store so that in-place operations ([Array.prototype.sort])
    and fresh allocations ([Array.prototype.filter]) are told apart. *)

From Stdlib Require Import ZArith QArith Qround Qabs Lia Lqa Bool Ascii String List Permutation Sorted.
From stdpp Require Import base option list gmap strings.

Local Open Scope Z_scope.

(** ** JavaScript numbers

    A Number is an IEEE 754 binary64 value.  A finite value is
    represented by the rational it denotes; the sign of zero is not
    tracked ([-0] compares equal to [0], is falsy like it, and
    [toFixed] prints both alike; the script never divides).  Results of
    arithmetic and of [parseFloat] are rounded to the nearest binary64
    value, ties to even, by [round64]. *)
Module Num.

Inductive number : Type :=
| NaN
| Infinity (neg : bool)
| Fin (q : Q).

Definition zero : number := Fin 0.
Definition posInf : number := Infinity false.

(** [pow2 k] is 2^k for any integer [k]. *)
Definition pow2 (k : Z) : Q :=
  if 0 <=? k then inject_Z (2 ^ k) else 1 # Z.to_pos (2 ^ (- k)).

(** Numerator and denominator of [(n/d) / 2^u], for [d > 0]. *)
Definition scaled (n d u : Z) : Z * Z :=
  if 0 <=? u then (n, d * 2 ^ u) else (n * 2 ^ (- u), d).

(** [n/d >= 2^u], in integers. *)
Definition above_pow2 (n d u : Z) : Prop :=
  let '(a, b) := scaled n d u in b <= a.

(** floor (log2 (n/d)) for positive [n] and [d]. *)
Definition floor_log2 (n d : Z) : Z :=
  let k := Z.log2 n - Z.log2 d in
  let '(a, b) := scaled n d k in
  if b <=? a then k else k - 1.

(** The integer nearest to [a/b] ([a >= 0], [b > 0]), ties to even. *)
Definition round_half_even (a b : Z) : Z :=
  let q := a / b in
  let r := a mod b in
  if 2 * r <? b then q
  else if b <? 2 * r then q + 1
  else if Z.even q then q else q + 1.

(** Rounding of the positive rational [n/d] to binary64: the unit in
    the last place is [2^u] with [u = max (e - 52) (-1074)], where [e]
    is the binary exponent of the value; [None] stands for overflow. *)
Definition round64_pos (n d : Z) : option Q :=
  let e := floor_log2 n d in
  let u := Z.max (e - 52) (-1074) in
  let '(a, b) := scaled n d u in
  let m := round_half_even a b in
  let v := Qred (inject_Z m * pow2 u) in
  if Qle_bool (pow2 1024) v then None else Some v.

Definition round64 (q : Q) : number :=
  match Qnum q with
  | Z0 => Fin 0
  | Zpos n =>
      match round64_pos (Zpos n) (Zpos (Qden q)) with
      | Some v => Fin v
      | None => Infinity false
      end
  | Zneg n =>
      match round64_pos (Zpos n) (Zpos (Qden q)) with
      | Some v => Fin (Qopp v)
      | None => Infinity true
      end
  end.

(** A finite value lies on the binary64 grid when it is an integer
    multiple of [2^-1074]; every finite binary64 value does. *)
Definition on_grid (q : Q) : bool :=
  (Qnum q * 2 ^ 1074) mod Zpos (Qden q) =? 0.

Definition binary64 (x : number) : bool :=
  match x with
  | Fin q => on_grid q
  | _ => true
  end.

(** IEEE comparison: [None] when an operand is NaN. *)
Definition cmp (x y : number) : option comparison :=
  match x, y with
  | NaN, _ | _, NaN => None
  | Infinity true, Infinity true => Some Eq
  | Infinity true, _ => Some Lt
  | _, Infinity true => Some Gt
  | Infinity false, Infinity false => Some Eq
  | Infinity false, _ => Some Gt
  | _, Infinity false => Some Lt
  | Fin a, Fin b => Some (Qcompare a b)
  end.

(** [x < y], [x <= y], [x >= y], [x > y] of JavaScript on Numbers. *)
Definition lt (x y : number) : bool :=
  match cmp x y with Some Lt => true | _ => false end.
Definition le (x y : number) : bool :=
  match cmp x y with Some Lt | Some Eq => true | _ => false end.
Definition ge (x y : number) : bool :=
  match cmp x y with Some Gt | Some Eq => true | _ => false end.
Definition gt (x y : number) : bool :=
  match cmp x y with Some Gt => true | _ => false end.

(** [x === y] on Numbers. *)
Definition eqb (x y : number) : bool :=
  match cmp x y with Some Eq => true | _ => false end.

(** [x - y]. *)
Definition sub (x y : number) : number :=
  match x, y with
  | NaN, _ | _, NaN => NaN
  | Infinity s, Infinity t => if Bool.eqb s t then NaN else Infinity s
  | Infinity s, Fin _ => Infinity s
  | Fin _, Infinity t => Infinity (negb t)
  | Fin a, Fin b => round64 (a - b)
  end.

(** ToBoolean on a Number: [NaN] and zero are falsy. *)
Definition truthy (x : number) : bool :=
  match x with
  | NaN => false
  | Infinity _ => true
  | Fin q => negb (Qeq_bool q 0)
  end.

(** [x || d] on Numbers. *)
Definition or_else (x d : number) : number := if truthy x then x else d.

End Num.
Export Num.

(** ** [parseFloat]

    ECMAScript: strip leading white space, take the longest prefix that
    is a StrDecimalLiteral, return its value rounded to binary64, or
    [NaN] when no prefix is one.  Strings are sequences of code units
    below 256; of the white space of ECMAScript that range holds TAB,
    LF, VT, FF, CR, SP and the no-break space (160), and the rest
    (U+FEFF, U+2028 and the like) cannot occur in such a string. *)
Module Parse.

Definition is_digit (c : ascii) : bool :=
  let n := nat_of_ascii c in (48 <=? n)%nat && (n <=? 57)%nat.

Definition digit_val (c : ascii) : Z := Z.of_nat (nat_of_ascii c) - 48.

Definition is_space (c : ascii) : bool :=
  let n := nat_of_ascii c in
  ((9 <=? n)%nat && (n <=? 13)%nat) || (n =? 32)%nat || (n =? 160)%nat.

Fixpoint trim_start (s : string) : string :=
  match s with
  | String c r => if is_space c then trim_start r else s
  | EmptyString => s
  end.

(** The longest run of decimal digits at the head of [s], and the rest. *)
Fixpoint span_digits (s : string) : string * string :=
  match s with
  | String c r =>
      if is_digit c then let '(ds, rest) := span_digits r in (String c ds, rest)
      else (EmptyString, s)
  | EmptyString => (EmptyString, EmptyString)
  end.

Fixpoint digits_value (acc : Z) (ds : string) : Z :=
  match ds with
  | String c r => digits_value (10 * acc + digit_val c) r
  | EmptyString => acc
  end.

Definition is_empty (s : string) : bool :=
  match s with EmptyString => true | _ => false end.

(** An optional leading sign: [true] for [-]. *)
Definition parse_sign (s : string) : bool * string :=
  match s with
  | String "-" r => (true, r)
  | String "+" r => (false, r)
  | _ => (false, s)
  end.

(** An optional ExponentPart; it is consumed only when digits follow
    the indicator and the optional sign. *)
Definition parse_exponent (s : string) : Z :=
  match s with
  | String c r =>
      if (Ascii.eqb c "e" || Ascii.eqb c "E")%bool then
        let '(neg, r1) := parse_sign r in
        let '(ds, _) := span_digits r1 in
        if is_empty ds then 0
        else if neg then - digits_value 0 ds else digits_value 0 ds
      else 0
  | EmptyString => 0
  end.

(** The mathematical value [m * 10^k]. *)
Definition decimal (m k : Z) : Q :=
  if 0 <=? k then inject_Z (m * 10 ^ k) else m # Z.to_pos (10 ^ (- k)).

(** StrUnsignedDecimalLiteral: [Infinity], or digits with an optional
    fraction and exponent; at least one digit is required. *)
Definition parse_unsigned (s : string) : option (option Q) :=
  if String.prefix "Infinity" s then Some None
  else
    let '(ip, r1) := span_digits s in
    let '(fp, r2) :=
      match r1 with
      | String "." r => span_digits r
      | _ => (EmptyString, r1)
      end in
    if is_empty ip && is_empty fp then None
    else
      let e := parse_exponent r2 in
      Some (Some (decimal (digits_value 0 (ip +:+ fp))
                          (e - Z.of_nat (String.length fp)))).

Definition parseFloat (s : string) : number :=
  let '(neg, r) := parse_sign (trim_start s) in
  match parse_unsigned r with
  | None => NaN
  | Some None => Infinity neg
  | Some (Some q) => round64 (if neg then Qopp q else q)
  end.

End Parse.
Export Parse.

(** ** Number to string conversions

    [Number.prototype.toFixed] and the part of [Number::toString] it
    falls back on, following ECMAScript. *)
Module Fmt.

Definition digit_char (d : Z) : ascii := ascii_of_nat (Z.to_nat (48 + d)).

Fixpoint to_digits (fuel : nat) (n : Z) (acc : string) : string :=
  match fuel with
  | O => acc
  | S f =>
      let acc' := String (digit_char (n mod 10)) acc in
      if n <? 10 then acc' else to_digits f (n / 10) acc'
  end.

(** The decimal representation of a non-negative integer. *)
Definition decimal_digits (n : Z) : string :=
  to_digits (S (Z.to_nat (Z.log2 n))) n EmptyString.

Fixpoint zeros (k : nat) : string :=
  match k with
  | O => EmptyString
  | S k' => String "0" (zeros k')
  end.

(** [Number::toString] for a finite [q >= 10^21]: the integers [n],
    [k] and [s] with [10^(k-1) <= s < 10^k], [s * 10^(n-k)] rounding to
    [q] and [k] as small as possible, the candidate nearest to [q]
    first, printed in exponential notation.  [digits] is the number of
    digits of the integer part of [q]; rounding up to a power of ten
    takes [n] one beyond it. *)
Definition mantissa_candidates (q : Q) (sc : Z) : list Z :=
  let lo := Qfloor (q / inject_Z sc) in
  if Qle_bool (q - inject_Z (lo * sc)) (inject_Z ((lo + 1) * sc) - q)
  then [lo; lo + 1] else [lo + 1; lo].

Definition round_trips (q : Q) (v : Z) : bool :=
  match round64 (inject_Z v) with
  | Fin w => Qeq_bool w q
  | _ => false
  end.

Fixpoint shortest_mantissa (fuel : nat) (q : Q) (digits k : Z) : Z * Z :=
  let sc := 10 ^ (digits - k) in
  match fuel with
  | O => (Qfloor (q / inject_Z sc), digits)
  | S f =>
      match List.find (fun s => round_trips q (s * sc)) (mantissa_candidates q sc) with
      | Some s => if s =? 10 ^ k then (10 ^ (k - 1), digits + 1) else (s, digits)
      | None => shortest_mantissa f q digits (k + 1)
      end
  end.

Definition toString_exponential (q : Q) : string :=
  let digits := Z.of_nat (String.length (decimal_digits (Qfloor q))) in
  let '(s, n) := shortest_mantissa 17 q digits 1 in
  let e := decimal_digits (n - 1) in
  match decimal_digits s with
  | String d EmptyString => String d ("e+" +:+ e)
  | String d ds => String d ("." +:+ ds +:+ "e+" +:+ e)
  | EmptyString => EmptyString
  end.

(** [x.toFixed(2)]. *)
Definition toFixed2 (x : number) : string :=
  match x with
  | NaN => "NaN"
  | Infinity false => "Infinity"
  | Infinity true => "-Infinity"
  | Fin q =>
      let s := if Qlt_le_dec q 0 then "-" else "" in
      let a := Qabs q in
      if Qle_bool (inject_Z (10 ^ 21)) a then s +:+ toString_exponential a
      else
        (* the integer n with n / 100 nearest to a, the larger on a tie *)
        let n := Qfloor (a * 100 + (1 # 2)) in
        let m := decimal_digits n in
        let k := String.length m in
        let m := if (k <=? 2)%nat then zeros (3 - k) +:+ m else m in
        let k := String.length m in
        s +:+ substring 0 (k - 2) m +:+ "." +:+ substring (k - 2) 2 m
  end.

Fixpoint all_digits (s : string) : bool :=
  match s with
  | String c r => is_digit c && all_digits r
  | EmptyString => true
  end.

(** An optional minus sign, at least one digit, a point, two digits. *)
Definition strip_minus (t : string) : string :=
  match t with
  | String c r => if Ascii.eqb c "-" then r else t
  | EmptyString => t
  end.

Definition unsigned_two_decimals (body : string) : bool :=
  let '(ip, rest) := span_digits body in
  negb (is_empty ip) &&
  match rest with
  | String "." (String d1 (String d2 EmptyString)) => is_digit d1 && is_digit d2
  | _ => false
  end.

Definition two_decimals (t : string) : bool := unsigned_two_decimals (strip_minus t).

End Fmt.
Export Fmt.

(** ** The page state *)

Record asset : Type := mkAsset {
  image : string;
  name : string;
  symbol : string;
  current_price : number;
  price_change_percentage_24h : number
}.

(** The three values [sortOrder] ever holds: ['default'], ['asc'], ['desc']. *)
Inductive sort_order : Type := default | asc | desc.

(** Children of the grid: what an [innerHTML] assignment parses out of
    a markup string, or a [div] made by [document.createElement]. *)
Inductive node : Type :=
| Markup (html : string)
| Div (className : string) (innerHTML : string).

(** The part of a DOM element the script reads or writes. *)
Record element : Type := mkElement {
  classList : list string;
  textContent : string;
  value : string;
  attributes : gmap string string;
  children : list node
}.

(** The elements the script looks up when it loads. *)
Inductive elt_id : Type :=
| assetGrid | minPriceInput | maxPriceInput | clearBtn | sortBtn | sortLabel
| themeToggle | loader | errorContainer | errorText | body | sunIcon | moonIcon.

#[global] Instance elt_id_eq_dec : EqDecision elt_id.
Proof. solve_decision. Defined.

(** Values thrown inside [fetchAssets]. *)
Inductive exn : Type :=
| Error (message : string)
| TypeError
| SyntaxError.

(** Arrays are objects: the variables [assets] and [displayAssets]
    hold references into [store]. *)
Record page : Type := mkPage {
  store : list (list asset);
  assets : nat;
  displayAssets : nat;
  sortOrder : sort_order;
  document : elt_id -> element;
  localStorage : gmap string string;
  console : list (string * exn)
}.

Definition set_store (h : list (list asset)) (s : page) : page :=
  mkPage h (assets s) (displayAssets s) (sortOrder s) (document s) (localStorage s) (console s).
Definition set_assets (r : nat) (s : page) : page :=
  mkPage (store s) r (displayAssets s) (sortOrder s) (document s) (localStorage s) (console s).
Definition set_displayAssets (r : nat) (s : page) : page :=
  mkPage (store s) (assets s) r (sortOrder s) (document s) (localStorage s) (console s).
Definition set_sortOrder (o : sort_order) (s : page) : page :=
  mkPage (store s) (assets s) (displayAssets s) o (document s) (localStorage s) (console s).
Definition set_document (d : elt_id -> element) (s : page) : page :=
  mkPage (store s) (assets s) (displayAssets s) (sortOrder s) d (localStorage s) (console s).
Definition set_localStorage (m : gmap string string) (s : page) : page :=
  mkPage (store s) (assets s) (displayAssets s) (sortOrder s) (document s) m (console s).
Definition set_console (c : list (string * exn)) (s : page) : page :=
  mkPage (store s) (assets s) (displayAssets s) (sortOrder s) (document s) (localStorage s) c.

(** *** Arrays *)

(** The contents of the array behind a reference. *)
Definition read (r : nat) (s : page) : list asset :=
  match store s !! r with
  | Some l => l
  | None => []
  end.

(** A new array object; its reference is the next free one. *)
Definition new_array (l : list asset) (s : page) : nat * page :=
  (length (store s), set_store (store s ++ [l]) s).

(** [arr.filter(p)]: a new array, [arr] untouched. *)
Definition Array_filter (p : asset -> bool) (r : nat) (s : page) : nat * page :=
  new_array (List.filter p (read r s)) s.

(** [SortCompare]: a [NaN] from the comparator counts as [+0]. *)
Definition SortCompare (comparefn : asset -> asset -> number) (x y : asset) : number :=
  match comparefn x y with
  | NaN => zero
  | v => v
  end.

(** [Array.prototype.sort] is stable, and for a consistent comparator
    the order it produces is unique; insertion from the right computes
    it: an element moves past those that compare strictly before it. *)
Fixpoint sort_insert (comparefn : asset -> asset -> number) (x : asset) (l : list asset)
  : list asset :=
  match l with
  | [] => [x]
  | y :: l' =>
      if gt (SortCompare comparefn x y) zero then y :: sort_insert comparefn x l'
      else x :: l
  end.

Definition sorted_by (comparefn : asset -> asset -> number) (l : list asset) : list asset :=
  foldr (sort_insert comparefn) [] l.

(** [arr.sort(comparefn)]: the array behind [r] is rewritten in place. *)
Definition Array_sort (comparefn : asset -> asset -> number) (r : nat) (s : page) : page :=
  set_store (<[r := sorted_by comparefn (read r s)]> (store s)) s.

(** *** DOM operations *)

Definition upd (id : elt_id) (f : element -> element) (d : elt_id -> element)
  : elt_id -> element :=
  fun j => if decide (j = id) then f (d j) else d j.

Definition on_element (id : elt_id) (f : element -> element) (s : page) : page :=
  set_document (upd id f (document s)) s.

Definition contains (tok : string) (e : element) : bool :=
  bool_decide (tok ∈ classList e).

Definition classList_add (id : elt_id) (tok : string) : page -> page :=
  on_element id (fun e =>
    mkElement (if contains tok e then classList e else classList e ++ [tok])
              (textContent e) (value e) (attributes e) (children e)).

Definition classList_remove (id : elt_id) (tok : string) : page -> page :=
  on_element id (fun e =>
    mkElement (List.filter (fun t => negb (String.eqb t tok)) (classList e))
              (textContent e) (value e) (attributes e) (children e)).

Definition set_textContent (id : elt_id) (v : string) : page -> page :=
  on_element id (fun e =>
    mkElement (classList e) v (value e) (attributes e) (children e)).

Definition set_value (id : elt_id) (v : string) : page -> page :=
  on_element id (fun e =>
    mkElement (classList e) (textContent e) v (attributes e) (children e)).

Definition getAttribute (id : elt_id) (k : string) (s : page) : option string :=
  attributes (document s id) !! k.

Definition setAttribute (id : elt_id) (k v : string) : page -> page :=
  on_element id (fun e =>
    mkElement (classList e) (textContent e) (value e) (<[k := v]> (attributes e)) (children e)).

(** [el.innerHTML = markup]: the children are replaced by what the
    markup parses to; the empty string leaves none. *)
Definition set_innerHTML (id : elt_id) (markup : string) : page -> page :=
  on_element id (fun e =>
    mkElement (classList e) (textContent e) (value e) (attributes e)
              (if is_empty markup then [] else [Markup markup])).

Definition appendChild (id : elt_id) (n : node) : page -> page :=
  on_element id (fun e =>
    mkElement (classList e) (textContent e) (value e) (attributes e) (children e ++ [n])).

Definition hidden (id : elt_id) (s : page) : bool := contains "hidden" (document s id).

(** *** UI helpers *)

Definition showLoader (s : page) : page :=
  classList_add assetGrid "hidden" (classList_remove loader "hidden" s).
Definition hideLoader (s : page) : page :=
  classList_remove assetGrid "hidden" (classList_add loader "hidden" s).
Definition showError (msg : string) (s : page) : page :=
  classList_remove errorContainer "hidden" (set_textContent errorText msg s).
Definition hideError (s : page) : page :=
  classList_add errorContainer "hidden" s.

(** ** Rendering *)

Definition dq : string := String (ascii_of_nat 34) EmptyString.
Definition nl : string := String (ascii_of_nat 10) EmptyString.

Definition no_results_markup : string :=
  "<p style=" +:+ dq +:+
  "text-align: center; width: 100%; color: var(--secondary-text); padding: 4rem;" +:+ dq +:+
  ">No assets found in this price range.</p>".

Definition colorClass (priceChange : number) : string :=
  if ge priceChange zero then "positive" else "negative".

Definition sign (priceChange : number) : string :=
  if ge priceChange zero then "+" else "".

(** The text of the 24-hour change: [${sign}${priceChange.toFixed(2)}%]. *)
Definition change_text (a : asset) : string :=
  let priceChange := price_change_percentage_24h a in
  sign priceChange +:+ toFixed2 priceChange +:+ "%".

(** One host's rendering of
    [toLocaleString(undefined, {minimumFractionDigits: 2, maximumFractionDigits: 2})],
    the en-US one: digits grouped by three, two decimals, halves rounded
    away from zero.  The script leaves the locale to the host, so the
    handlers below take the formatter as a parameter; this one serves to
    run them. *)
Fixpoint group_rev (i : nat) (ds : string) : string :=
  match ds with
  | EmptyString => EmptyString
  | String c r =>
      if (0 <? i)%nat && (i mod 3 =? 0)%nat
      then String "," (String c (group_rev (S i) r))
      else String c (group_rev (S i) r)
  end.

Definition toLocaleString_en_US (x : number) : string :=
  match x with
  | NaN => "NaN"
  | Infinity s => (if s then "-" else "") +:+ "∞"
  | Fin q =>
      let n := Qfloor (Qabs q * 100 + (1 # 2)) in
      let frac := decimal_digits (n mod 100) in
      (if Qlt_le_dec q 0 then "-" else "") +:+
      String.rev (group_rev 0 (String.rev (decimal_digits (n / 100)))) +:+ "." +:+
      (if (String.length frac <=? 1)%nat then "0" +:+ frac else frac)
  end.

Section App.

(** [n.toLocaleString(undefined, {minimumFractionDigits: 2,
    maximumFractionDigits: 2})] in the host's default locale. *)
Variable toLocaleString : number -> string.

(** The card's markup, cut where the colour class is spliced in. *)
Definition card_top (a : asset) : string :=
  nl +:+
  "            <img src=" +:+ dq +:+ image a +:+ dq +:+ " alt=" +:+ dq +:+ name a +:+ dq +:+
    " class=" +:+ dq +:+ "asset-icon" +:+ dq +:+ ">" +:+ nl +:+
  "            <div class=" +:+ dq +:+ "asset-info" +:+ dq +:+ ">" +:+ nl +:+
  "                <div class=" +:+ dq +:+ "asset-name" +:+ dq +:+ ">" +:+ name a +:+ "</div>" +:+ nl +:+
  "                <div class=" +:+ dq +:+ "asset-symbol" +:+ dq +:+ ">" +:+ symbol a +:+ "</div>" +:+ nl +:+
  "            </div>" +:+ nl +:+
  "            <div class=" +:+ dq +:+ "asset-price" +:+ dq +:+ ">" +:+ nl +:+
  "                <div>$" +:+ toLocaleString (current_price a) +:+ "</div>" +:+ nl +:+
  "                <div style=" +:+ dq +:+ "font-size: 0.8rem; font-weight: 500; color: var(--".

Definition card_bottom : string :=
  "</div>" +:+ nl +:+
  "            </div>" +:+ nl +:+
  "        ".

Definition card_innerHTML (a : asset) : string :=
  card_top a +:+ colorClass (price_change_percentage_24h a) +:+ ")" +:+ dq +:+ ">" +:+
  change_text a +:+ card_bottom.

Definition card (a : asset) : node := Div "asset-card" (card_innerHTML a).

Definition renderAssets (s : page) : page :=
  let s := set_innerHTML assetGrid "" s in
  if (length (read (displayAssets s) s) =? 0)%nat then
    set_innerHTML assetGrid no_results_markup s
  else
    fold_left (fun st a => appendChild assetGrid (card a) st)
              (read (displayAssets s) s) s.

(** What the grid holds after a render, as a function of the display
    list (used to state properties). *)
Definition rendered (l : list asset) : list node :=
  match l with
  | [] => [Markup no_results_markup]
  | _ => map card l
  end.

(** ** Filtering and sorting *)

Definition in_range (min max : number) (a : asset) : bool :=
  ge (current_price a) min && le (current_price a) max.

Definition by_price_asc (a b : asset) : number := sub (current_price a) (current_price b).
Definition by_price_desc (a b : asset) : number := sub (current_price b) (current_price a).

Definition min_bound (s : page) : number :=
  or_else (parseFloat (value (document s minPriceInput))) zero.
Definition max_bound (s : page) : number :=
  or_else (parseFloat (value (document s maxPriceInput))) posInf.

Definition applyFiltersAndSort (s : page) : page :=
  let min := min_bound s in
  let max := max_bound s in
  let '(r, s) := Array_filter (in_range min max) (assets s) s in
  let s := set_displayAssets r s in
  let s :=
    match sortOrder s with
    | asc => Array_sort by_price_asc (displayAssets s) s
    | desc => Array_sort by_price_desc (displayAssets s) s
    | default =>
        let '(r, s) := Array_filter (in_range min max) (assets s) s in
        set_displayAssets r s
    end in
  renderAssets s.

Definition cycleSort (s : page) : page :=
  let s :=
    match sortOrder s with
    | default => set_textContent sortLabel "Sort: High to Low" (set_sortOrder desc s)
    | desc => set_textContent sortLabel "Sort: Low to High" (set_sortOrder asc s)
    | asc => set_textContent sortLabel "Sort: Default" (set_sortOrder default s)
    end in
  applyFiltersAndSort s.

Definition clearFilters (s : page) : page :=
  let s := set_value minPriceInput "" s in
  let s := set_value maxPriceInput "" s in
  let s := set_sortOrder default s in
  let s := set_textContent sortLabel "Sort: Default" s in
  applyFiltersAndSort s.

(** ** Fetching

    What [fetch(API_URL)] settles with: [None] when the promise rejects
    (no response), otherwise the response, whose [json] is [None] when
    the body is not well-formed JSON. *)
Record response : Type := mkResponse {
  ok : bool;
  status : Z;
  statusText : string;
  json : option (list asset)
}.

Definition fetch_error_message : string :=
  "Could not fetch crypto data. Please check your connection or try again later.".

(** The [catch] block. *)
Definition on_fetch_error (err : exn) (s : page) : page :=
  showError fetch_error_message (set_console (console s ++ [("Fetch error:", err)]) s).

(** [fetchAssets] up to its first [await]. *)
Definition fetchAssets_begin (s : page) : page := hideError (showLoader s).

(** [fetchAssets] from the point where the request has settled:
    the rest of the [try] block, [catch], then [finally]. *)
Definition fetchAssets_settle (r : option response) (s : page) : page :=
  let s :=
    match r with
    | None => on_fetch_error TypeError s
    | Some resp =>
        if negb (ok resp) then
          on_fetch_error
            (Error ("API returned " +:+ decimal_digits (status resp) +:+ ": " +:+ statusText resp)) s
        else
          match json resp with
          | None => on_fetch_error SyntaxError s
          | Some data =>
              let '(r, s) := new_array data s in
              applyFiltersAndSort (set_assets r s)
          end
    end in
  hideLoader s.

Definition fetchAssets (r : option response) (s : page) : page :=
  fetchAssets_settle r (fetchAssets_begin s).

End App.

(** ** Theme *)

Definition toggleTheme (s : page) : page :=
  let currentTheme := getAttribute body "data-theme" s in
  let newTheme := if bool_decide (currentTheme = Some "light") then "dark" else "light" in
  let s := setAttribute body "data-theme" newTheme s in
  let s := set_localStorage (<["highlite-theme" := newTheme]> (localStorage s)) s in
  if String.eqb newTheme "dark" then
    classList_remove moonIcon "hidden" (classList_add sunIcon "hidden" s)
  else
    classList_add moonIcon "hidden" (classList_remove sunIcon "hidden" s).

(** [init], up to the first [await] inside [fetchAssets]. *)
Definition init (s : page) : page :=
  let savedTheme := localStorage s !! "highlite-theme" in
  let s :=
    if bool_decide (savedTheme = Some "dark") then
      classList_remove moonIcon "hidden"
        (classList_add sunIcon "hidden" (setAttribute body "data-theme" "dark" s))
    else s in
  fetchAssets_begin s.

(** ** The invariant of the display list

    Every asset shown belongs to the base list and lies within the
    bounds currently in the two inputs. *)
Definition display_invariant (s : page) : Prop :=
  forall a, a ∈ read (displayAssets s) s ->
    a ∈ read (assets s) s /\
    ge (current_price a) (min_bound s) = true /\
    le (current_price a) (max_bound s) = true.

(** ** Event wiring

    The listeners registered at the end of the script.  An [input]
    event reaches the handler after the browser has stored the edited
    text in the field's [value]; [FetchSettled] is the moment the
    request started by [fetchAssets] settles.  Any order of events is
    admitted, which covers the orders a browser can produce. *)
Inductive event : Type :=
| InputMin (text : string)
| InputMax (text : string)
| ClickClear
| ClickSort
| ClickTheme
| DOMContentLoaded
| FetchSettled (r : option response).

Section Wiring.
Variable toLocaleString : number -> string.

Definition dispatch (e : event) (s : page) : page :=
  match e with
  | InputMin text => applyFiltersAndSort toLocaleString (set_value minPriceInput text s)
  | InputMax text => applyFiltersAndSort toLocaleString (set_value maxPriceInput text s)
  | ClickClear => clearFilters toLocaleString s
  | ClickSort => cycleSort toLocaleString s
  | ClickTheme => toggleTheme s
  | DOMContentLoaded => init s
  | FetchSettled r => fetchAssets_settle toLocaleString r s
  end.

Definition run_events (es : list event) (s : page) : page :=
  fold_left (fun st e => dispatch e st) es s.

(** What the user sees agrees with the state: [assets] refers to a
    live array, the display list is the one the engine computes from
    the current inputs, mode and base list, the label names the mode,
    and the grid shows the display list. *)
Definition view_in_sync (s : page) : Prop :=
  (assets s < length (store s))%nat /\
  read (displayAssets s) s =
    read (displayAssets (applyFiltersAndSort toLocaleString s))
         (applyFiltersAndSort toLocaleString s) /\
  textContent (document s sortLabel) =
    match sortOrder s with
    | default => "Sort: Default"
    | desc => "Sort: High to Low"
    | asc => "Sort: Low to High"
    end /\
  children (document s assetGrid) = rendered toLocaleString (read (displayAssets s) s).

End Wiring.

(** The theme is coherent: the page carries the dark attribute exactly
    when the sun icon is hidden, and exactly one of the two icons is
    hidden. *)
Definition theme_coherent (s : page) : Prop :=
  bool_decide (getAttribute body "data-theme" s = Some "dark") = hidden sunIcon s /\
  hidden moonIcon s = negb (hidden sunIcon s).

(** ** Sample data for running the model *)

Definition blank : element := mkElement [] "" "" ∅ [].

(** The module variables as the script initialises them, [let assets = []]
    and [let displayAssets = []], over a document whose elements carry
    no class, text or attribute. *)
Definition page0 : page :=
  mkPage [[]; []] 0%nat 1%nat default (fun _ => blank) ∅ [].

(** A page on which no theme has been applied or saved: no [data-theme]
    attribute, nothing stored, the sun icon shown and the moon icon
    hidden. *)
Definition fresh_page : page := classList_add moonIcon "hidden" page0.

Definition num (s : string) : number := parseFloat s.

Definition btc : asset := mkAsset "btc.png" "Bitcoin" "btc" (num "43250.12") (num "1.2345").
Definition eth : asset := mkAsset "eth.png" "Ethereum" "eth" (num "2280.5") (num "-0.004").
Definition usdt : asset := mkAsset "usdt.png" "Tether" "usdt" (num "1") (num "0").
Definition usdc : asset := mkAsset "usdc.png" "USDC" "usdc" (num "1") (num "-0.02").
Definition doge : asset := mkAsset "doge.png" "Dogecoin" "doge" (num "0.08") (num "12.5").
Definition moon : asset := mkAsset "moon.png" "Moonshot" "moon" (num "0.5") (num "1e21").
Definition debt : asset := mkAsset "debt.png" "Debt" "debt" (num "-3") (num "0").

Definition with_assets (l : list asset) (s : page) : page :=
  let '(r, s) := new_array l s in set_assets r s.

Definition with_inputs (lo hi : string) (s : page) : page :=
  set_value maxPriceInput hi (set_value minPriceInput lo s).

Definition market : list asset := [btc; eth; usdt; usdc; doge].

(** The rational behind a finite Number. *)
Definition rational (x : number) : Q :=
  match x with
  | Fin q => q
  | _ => 0
  end.

(** * Properties *)

(** ** The model at a few inputs *)

Example parseFloat_tenth : parseFloat "0.1" = Fin (3602879701896397 # 36028797018963968).
Proof. reflexivity. Qed.

Example parseFloat_prefix : parseFloat "  -12.5e1abc" = Fin (-125).
Proof. reflexivity. Qed.

Example parseFloat_empty : parseFloat "" = NaN /\ parseFloat "abc" = NaN /\ parseFloat "." = NaN.
Proof. repeat split. Qed.

Example parseFloat_underflow : parseFloat "1e-400" = Fin 0.
Proof. vm_compute. reflexivity. Qed.

Example parseFloat_overflow : parseFloat "1e400" = Infinity false.
Proof. vm_compute. reflexivity. Qed.

Example parseFloat_ties_to_even : parseFloat "9007199254740993" = Fin 9007199254740992.
Proof. vm_compute. reflexivity. Qed.

Example toFixed2_samples :
  toFixed2 (num "1.005") = "1.00" /\ toFixed2 (num "0.125") = "0.13" /\
  toFixed2 (num "-0.001") = "-0.00" /\ toFixed2 (num "-12345.678") = "-12345.68" /\
  toFixed2 (num "1e21") = "1e+21" /\
  toFixed2 (num "123456789012345678901234567890") = "1.2345678901234568e+29" /\
  toFixed2 (num "1e400") = "Infinity".
Proof. vm_compute. repeat split. Qed.

Example sort_is_stable :
  sorted_by by_price_asc market = [doge; usdt; usdc; eth; btc] /\
  sorted_by by_price_desc [doge; usdc; eth; usdt] = [eth; usdc; usdt; doge].
Proof. vm_compute. repeat split. Qed.

Example card_of_eth :
  change_text eth = "-0.00%" /\ colorClass (price_change_percentage_24h eth) = "negative" /\
  toLocaleString_en_US (current_price btc) = "43,250.12".
Proof. vm_compute. repeat split. Qed.

(** ** Arrays and the store *)

Lemma read_new_array l s :
  read (new_array l s).1 (new_array l s).2 = l.
Proof.
  unfold read, new_array; simpl.
  rewrite lookup_app_r by lia.
  by rewrite Nat.sub_diag.
Qed.

Lemma read_new_array_old l s r :
  (r < length (store s))%nat -> read r (new_array l s).2 = read r s.
Proof.
  intros Hr. unfold read, new_array; simpl.
  by rewrite lookup_app_l.
Qed.

Lemma read_Array_sort_same c r s :
  (r < length (store s))%nat -> read r (Array_sort c r s) = sorted_by c (read r s).
Proof.
  intros Hr. unfold Array_sort, read at 1; simpl.
  by rewrite list_lookup_insert_eq.
Qed.

Lemma read_Array_sort_other c r r' s :
  r <> r' -> read r' (Array_sort c r s) = read r' s.
Proof.
  intros Hr. unfold Array_sort, read; simpl.
  by rewrite list_lookup_insert_ne.
Qed.

(** ** Rendering leaves everything but the grid alone *)

Section Render.
Variable toLocaleString : number -> string.

Lemma append_cards l s :
  let s' := fold_left (fun st a => appendChild assetGrid (card toLocaleString a) st) l s in
  store s' = store s /\ assets s' = assets s /\ displayAssets s' = displayAssets s /\
  sortOrder s' = sortOrder s /\ localStorage s' = localStorage s /\
  console s' = console s /\
  (forall id, id <> assetGrid -> document s' id = document s id) /\
  classList (document s' assetGrid) = classList (document s assetGrid) /\
  children (document s' assetGrid) =
    children (document s assetGrid) ++ map (card toLocaleString) l.
Proof.
  revert s. induction l as [|a l IH]; intros s; simpl.
  - rewrite app_nil_r. tauto.
  - destruct (IH (appendChild assetGrid (card toLocaleString a) s))
      as (H1 & H2 & H3 & H4 & H5 & H6 & H7 & H8 & H9).
    rewrite H1, H2, H3, H4, H5, H6, H8, H9. simpl.
    repeat split; try reflexivity.
    + intros id Hid. rewrite (H7 id Hid). simpl. unfold upd.
      by destruct (decide (id = assetGrid)).
    + unfold upd. destruct (decide (assetGrid = assetGrid)); [|done].
      simpl. by rewrite <- app_assoc.
Qed.

Lemma renderAssets_frame s :
  let s' := renderAssets toLocaleString s in
  store s' = store s /\ assets s' = assets s /\ displayAssets s' = displayAssets s /\
  sortOrder s' = sortOrder s /\ localStorage s' = localStorage s /\
  console s' = console s /\
  (forall id, id <> assetGrid -> document s' id = document s id) /\
  classList (document s' assetGrid) = classList (document s assetGrid).
Proof.
  unfold renderAssets. cbv zeta.
  set (s0 := set_innerHTML assetGrid "" s).
  assert (Hd : forall id, id <> assetGrid -> document s0 id = document s id).
  { intros id Hid. unfold s0; simpl. unfold upd. by destruct (decide (id = assetGrid)). }
  destruct (length (read (displayAssets s0) s0) =? 0)%nat.
  - simpl. repeat split; try reflexivity.
    intros id Hid. unfold upd. by repeat case_decide.
  - destruct (append_cards (read (displayAssets s0) s0) s0)
      as (H1 & H2 & H3 & H4 & H5 & H6 & H7 & H8 & _).
    rewrite H1, H2, H3, H4, H5, H6, H8.
    repeat split; try reflexivity.
    intros id Hid. rewrite (H7 id Hid). by apply Hd.
Qed.

Lemma read_renderAssets r s : read r (renderAssets toLocaleString s) = read r s.
Proof.
  unfold read. by rewrite (proj1 (renderAssets_frame s)).
Qed.

Lemma renderAssets_children s :
  children (document (renderAssets toLocaleString s) assetGrid) =
  rendered toLocaleString (read (displayAssets s) s).
Proof.
  unfold renderAssets. cbv zeta.
  set (s0 := set_innerHTML assetGrid "" s).
  assert (Hr : read (displayAssets s0) s0 = read (displayAssets s) s) by reflexivity.
  rewrite Hr.
  destruct (read (displayAssets s) s) as [|a l] eqn:E.
  - simpl. unfold upd. by repeat case_decide.
  - change (length (a :: l) =? 0)%nat with false. cbv iota.
    destruct (append_cards (a :: l) s0) as (_ & _ & _ & _ & _ & _ & _ & _ & H).
    rewrite H. unfold s0; simpl. unfold upd. by repeat case_decide.
Qed.

End Render.

(** ** What [applyFiltersAndSort] computes *)

Section Engine.
Variable toLocaleString : number -> string.

Abbreviation apply := (applyFiltersAndSort toLocaleString).

Lemma store_Array_sort_fresh c l s :
  store (Array_sort c (length (store s)) (set_displayAssets (length (store s)) (new_array l s).2))
  = store s ++ [sorted_by c l].
Proof.
  unfold Array_sort, read, new_array; simpl.
  rewrite lookup_app_r by lia. rewrite Nat.sub_diag. simpl.
  rewrite insert_app_r_alt by lia. by rewrite Nat.sub_diag.
Qed.

(** The display list after a run, by sort mode; the base list and every
    array that existed before are untouched, and the grid shows the
    display list. *)
Lemma applyFiltersAndSort_spec s :
  let s' := apply s in
  let kept := List.filter (in_range (min_bound s) (max_bound s)) (read (assets s) s) in
  read (displayAssets s') s' =
    match sortOrder s with
    | default => kept
    | asc => sorted_by by_price_asc kept
    | desc => sorted_by by_price_desc kept
    end /\
  (exists k, store s' = store s ++ k) /\
  assets s' = assets s /\ sortOrder s' = sortOrder s /\
  localStorage s' = localStorage s /\ console s' = console s /\
  (forall id, id <> assetGrid -> document s' id = document s id) /\
  classList (document s' assetGrid) = classList (document s assetGrid) /\
  children (document s' assetGrid) = rendered toLocaleString (read (displayAssets s') s').
Proof.
  cbv zeta. unfold applyFiltersAndSort.
  set (kept := List.filter (in_range (min_bound s) (max_bound s)) (read (assets s) s)).
  unfold Array_filter. fold kept.
  change (new_array kept s) with (length (store s), set_store (store s ++ [kept]) s).
  cbv beta iota zeta.
  set (s1 := set_displayAssets (length (store s)) (set_store (store s ++ [kept]) s)).
  change (sortOrder s1) with (sortOrder s).
  change (displayAssets s1) with (length (store s)).
  assert (Hs1 : store s1 = store s ++ [kept]) by reflexivity.
  assert (Hk : List.filter (in_range (min_bound s) (max_bound s)) (read (assets s1) s1) = kept).
  { change (assets s1) with (assets s).
    destruct (lt_dec (assets s) (length (store s))) as [Hlt|Hge].
    - unfold read at 1. rewrite Hs1, lookup_app_l by done. reflexivity.
    - assert (Hb : read (assets s) s = []).
      { unfold read. by rewrite lookup_ge_None_2 by lia. }
      assert (Hke : kept = []) by (unfold kept; by rewrite Hb).
      unfold read at 1. rewrite Hs1, Hke.
      destruct ((store s ++ [[]]) !! assets s) as [l|] eqn:E; [|done].
      apply lookup_app_Some in E as [E|[_ E]].
      + apply lookup_lt_Some in E. lia.
      + apply list_lookup_singleton_Some in E as [_ <-]. reflexivity. }
  destruct (sortOrder s) eqn:Ho.
  - (* default: the filter runs a second time, into a second array *)
    rewrite Hk.
    change (new_array kept s1) with (length (store s1), set_store (store s1 ++ [kept]) s1).
    cbv beta iota zeta.
    set (s2 := set_displayAssets _ _).
    assert (Hd : read (displayAssets s2) s2 = kept).
    { unfold s2, read; simpl. rewrite lookup_app_r by lia. by rewrite Nat.sub_diag. }
    destruct (renderAssets_frame toLocaleString s2) as (H1 & H2 & H3 & H4 & H5 & H6 & H7 & H8).
    rewrite read_renderAssets, renderAssets_children, H1, H2, H3, H4, H5, H6, H8, Hd.
    repeat split; try reflexivity; try exact Ho;
      try (intros id Hid; by rewrite H7).
    exists [kept; kept]. unfold s2; simpl. by rewrite <- app_assoc.
  - (* asc: the fresh array is sorted in place *)
    set (s2 := Array_sort _ _ _).
    assert (H2s : store s2 = store s ++ [sorted_by by_price_asc kept])
      by apply store_Array_sort_fresh.
    assert (Hd : read (displayAssets s2) s2 = sorted_by by_price_asc kept).
    { unfold read. rewrite H2s. change (displayAssets s2) with (length (store s)).
      rewrite lookup_app_r by lia. by rewrite Nat.sub_diag. }
    destruct (renderAssets_frame toLocaleString s2) as (H1 & H2 & H3 & H4 & H5 & H6 & H7 & H8).
    rewrite read_renderAssets, renderAssets_children, H1, H2, H3, H4, H5, H6, H8, Hd.
    repeat split; try reflexivity; try exact Ho;
      try (intros id Hid; by rewrite H7).
    by exists [sorted_by by_price_asc kept].
  - (* desc *)
    set (s2 := Array_sort _ _ _).
    assert (H2s : store s2 = store s ++ [sorted_by by_price_desc kept])
      by apply store_Array_sort_fresh.
    assert (Hd : read (displayAssets s2) s2 = sorted_by by_price_desc kept).
    { unfold read. rewrite H2s. change (displayAssets s2) with (length (store s)).
      rewrite lookup_app_r by lia. by rewrite Nat.sub_diag. }
    destruct (renderAssets_frame toLocaleString s2) as (H1 & H2 & H3 & H4 & H5 & H6 & H7 & H8).
    rewrite read_renderAssets, renderAssets_children, H1, H2, H3, H4, H5, H6, H8, Hd.
    repeat split; try reflexivity; try exact Ho;
      try (intros id Hid; by rewrite H7).
    by exists [sorted_by by_price_desc kept].
Qed.

End Engine.

(** ** The sort *)

Section Sorting.
Variable comparefn : asset -> asset -> number.

Lemma sort_insert_Permutation x l : sort_insert comparefn x l ≡ₚ x :: l.
Proof.
  induction l as [|y l IH]; simpl; [done|].
  destruct (gt (SortCompare comparefn x y) zero); [|done].
  rewrite IH. apply Permutation_swap.
Qed.

Lemma sorted_by_Permutation l : sorted_by comparefn l ≡ₚ l.
Proof.
  induction l as [|x l IH]; simpl; [done|].
  change (foldr (sort_insert comparefn) [] l) with (sorted_by comparefn l).
  by rewrite sort_insert_Permutation, IH.
Qed.

(** Stability, for a class [p] of elements that never overtake one
    another: their subsequence is the same before and after. *)
Lemma sort_insert_filter (p : asset -> bool) x l :
  (forall y, p x = true -> p y = true -> gt (SortCompare comparefn x y) zero = false) ->
  List.filter p (sort_insert comparefn x l) = List.filter p (x :: l).
Proof.
  intros Hp. induction l as [|y l IH]; simpl; [done|].
  destruct (gt (SortCompare comparefn x y) zero) eqn:Hg; [|done].
  simpl. simpl in IH. rewrite IH.
  destruct (p x) eqn:Hx; [|done].
  destruct (p y) eqn:Hy; [|done].
  rewrite (Hp y eq_refl Hy) in Hg. discriminate.
Qed.

Lemma sorted_by_filter (p : asset -> bool) l :
  (forall x y, p x = true -> p y = true -> gt (SortCompare comparefn x y) zero = false) ->
  List.filter p (sorted_by comparefn l) = List.filter p l.
Proof.
  intros Hp. induction l as [|x l IH]; simpl; [done|].
  change (foldr (sort_insert comparefn) [] l) with (sorted_by comparefn l).
  rewrite sort_insert_filter by (intros y; apply Hp).
  simpl. by rewrite IH.
Qed.

(** Order, for a relation [R] that the comparator decides on the
    elements at hand. *)
Lemma sort_insert_sorted (R : asset -> asset -> Prop) (ok : asset -> Prop) x l :
  (forall a b c, ok a -> ok b -> ok c -> R a b -> R b c -> R a c) ->
  (forall a b, ok a -> ok b -> gt (SortCompare comparefn a b) zero = true -> R b a) ->
  (forall a b, ok a -> ok b -> gt (SortCompare comparefn a b) zero = false -> R a b) ->
  ok x -> Forall ok l ->
  StronglySorted R l -> StronglySorted R (sort_insert comparefn x l).
Proof.
  intros Htrans Hgt Hle Hx Hl Hs.
  induction Hs as [|y l Hs IH Hy]; simpl.
  - repeat constructor.
  - apply Forall_cons in Hl as [Hoy Hl].
    destruct (gt (SortCompare comparefn x y) zero) eqn:Hg.
    + constructor; [by apply IH|].
      rewrite sort_insert_Permutation. constructor; [by apply Hgt|done].
    + constructor; [by constructor|].
      assert (Hxy : R x y) by by apply Hle.
      constructor; [done|].
      rewrite Forall_forall in Hy, Hl. apply Forall_forall. intros z Hz.
      apply (Htrans x y z); auto.
Qed.

Lemma sorted_by_sorted (R : asset -> asset -> Prop) (ok : asset -> Prop) l :
  (forall a b c, ok a -> ok b -> ok c -> R a b -> R b c -> R a c) ->
  (forall a b, ok a -> ok b -> gt (SortCompare comparefn a b) zero = true -> R b a) ->
  (forall a b, ok a -> ok b -> gt (SortCompare comparefn a b) zero = false -> R a b) ->
  Forall ok l -> StronglySorted R (sorted_by comparefn l).
Proof.
  intros Htrans Hgt Hle Hl. induction Hl as [|x l Hx Hl IH]; simpl; [constructor|].
  change (foldr (sort_insert comparefn) [] l) with (sorted_by comparefn l).
  apply (sort_insert_sorted R ok); auto.
  by rewrite sorted_by_Permutation.
Qed.

End Sorting.

(** ** Facts about Numbers *)

Section NumberOrder.

Lemma cmp_Fin a b : cmp (Fin a) (Fin b) = Some (a ?= b)%Q.
Proof. reflexivity. Qed.

Lemma Qcompare_cases a b :
  ((a ?= b)%Q = Lt /\ (a < b)%Q) \/ ((a ?= b)%Q = Eq /\ (a == b)%Q) \/
  ((a ?= b)%Q = Gt /\ (b < a)%Q).
Proof.
  destruct (a ?= b)%Q eqn:E.
  - right; left. split; [done|]. by apply Qeq_alt.
  - left. split; [done|]. by apply Qlt_alt.
  - right; right. split; [done|]. by apply Qgt_alt.
Qed.

Ltac q_cases a b :=
  let H := fresh "Hc" in let E := fresh "Ec" in
  destruct (Qcompare_cases a b) as [[E H]|[[E H]|[E H]]]; rewrite ?E in *.

Lemma le_trans x y z : le x y = true -> le y z = true -> le x z = true.
Proof.
  unfold le.
  destruct x as [|[]|a], y as [|[]|b], z as [|[]|c]; simpl; try done.
  q_cases a b; try done; q_cases b c; try done; q_cases a c; try done;
    exfalso; lra.
Qed.

Lemma ge_trans x y z : ge x y = true -> ge y z = true -> ge x z = true.
Proof.
  unfold ge.
  destruct x as [|[]|a], y as [|[]|b], z as [|[]|c]; simpl; try done.
  q_cases a b; try done; q_cases b c; try done; q_cases a c; try done;
    exfalso; lra.
Qed.

Lemma ge_le x y : ge x y = le y x.
Proof.
  unfold ge, le.
  destruct x as [|[]|a], y as [|[]|b]; simpl; try done.
  q_cases a b; q_cases b a; try done; exfalso; lra.
Qed.

Lemma gt_lt x y : gt x y = lt y x.
Proof.
  unfold gt, lt.
  destruct x as [|[]|a], y as [|[]|b]; simpl; try done.
  q_cases a b; q_cases b a; try done; exfalso; lra.
Qed.

(** Away from [NaN] the order is total. *)
Lemma gt_false_le x y : x <> NaN -> y <> NaN -> gt x y = false -> le x y = true.
Proof.
  unfold gt, le.
  destruct x as [|[]|a], y as [|[]|b]; simpl; try done.
  by destruct (a ?= b)%Q.
Qed.

Lemma gt_true_le x y : gt x y = true -> le y x = true.
Proof.
  unfold gt, le.
  destruct x as [|[]|a], y as [|[]|b]; simpl; try done.
  q_cases a b; try done. q_cases b a; try done; exfalso; lra.
Qed.

Lemma ge_not_lt x y : ge x y = true -> lt x y = false.
Proof.
  unfold ge, lt. destruct (cmp x y) as [[]|]; done.
Qed.

Lemma ge_not_NaN x y : ge x y = true -> x <> NaN.
Proof. by destruct x. Qed.

End NumberOrder.

(** ** Rounding keeps the sign of a difference *)

Section Rounding.

Lemma scaled_pos n d u a b :
  0 < n -> 0 < d -> scaled n d u = (a, b) -> 0 < a /\ 0 < b.
Proof.
  intros Hn Hd. unfold scaled.
  destruct (0 <=? u) eqn:Hu; intros [= <- <-].
  - apply Z.leb_le in Hu. split; [done|].
    apply Z.mul_pos_pos; [done|]. by apply Z.pow_pos_nonneg.
  - apply Z.leb_gt in Hu. split; [|done].
    apply Z.mul_pos_pos; [done|]. apply Z.pow_pos_nonneg; lia.
Qed.

Lemma above_pow2_floor_log2 n d :
  0 < n -> 0 < d -> above_pow2 n d (floor_log2 n d).
Proof.
  intros Hn Hd. unfold floor_log2.
  set (k := Z.log2 n - Z.log2 d).
  destruct (scaled n d k) as [a b] eqn:E.
  destruct (b <=? a) eqn:Hba.
  - unfold above_pow2. rewrite E. by apply Z.leb_le.
  - destruct (Z.log2_spec n Hn) as [Hn1 _].
    destruct (Z.log2_spec d Hd) as [_ Hd2].
    pose proof (Z.log2_nonneg n) as Ln. pose proof (Z.log2_nonneg d) as Ld.
    unfold above_pow2, scaled.
    destruct (0 <=? k - 1) eqn:Hk.
    + apply Z.leb_le in Hk.
      assert (H : d * 2 ^ (k - 1) <= 2 ^ Z.log2 n); [|lia].
      replace (Z.log2 n) with (Z.succ (Z.log2 d) + (k - 1)) by (unfold k; lia).
      rewrite Z.pow_add_r by lia.
      apply Z.mul_le_mono_nonneg_r; [apply Z.pow_nonneg; lia|lia].
    + apply Z.leb_gt in Hk.
      assert (H : 2 ^ Z.succ (Z.log2 d) <= n * 2 ^ (- (k - 1))); [|lia].
      replace (Z.succ (Z.log2 d)) with (Z.log2 n + (- (k - 1))) by (unfold k; lia).
      rewrite Z.pow_add_r by lia.
      apply Z.mul_le_mono_nonneg_r; [apply Z.pow_nonneg; lia|lia].
Qed.

Lemma above_pow2_mono n d u w :
  0 < n -> 0 < d -> u <= w -> above_pow2 n d w -> above_pow2 n d u.
Proof.
  intros Hn Hd Huw. unfold above_pow2, scaled.
  destruct (0 <=? w) eqn:Hw, (0 <=? u) eqn:Hu;
    rewrite ?Z.leb_le, ?Z.leb_gt in Hw, Hu; intros H.
  - assert (2 ^ u <= 2 ^ w) by (apply Z.pow_le_mono_r; lia). nia.
  - assert (1 <= 2 ^ w) by (apply (Z.pow_le_mono_r 2 0 w); lia).
    assert (1 <= 2 ^ (- u)) by (apply (Z.pow_le_mono_r 2 0 (- u)); lia). nia.
  - lia.
  - assert (2 ^ (- w) <= 2 ^ (- u)) by (apply Z.pow_le_mono_r; lia). nia.
Qed.

Lemma round_half_even_nonneg a b : 0 <= a -> 0 < b -> 0 <= round_half_even a b.
Proof.
  intros Ha Hb. unfold round_half_even.
  assert (0 <= a / b) by (apply Z.div_pos; lia).
  repeat case_match; lia.
Qed.

Lemma round_half_even_pos a b : 0 < b -> b <= a -> 1 <= round_half_even a b.
Proof.
  intros Hb Ha. unfold round_half_even.
  assert (0 < a / b) by (apply Z.div_str_pos; lia).
  repeat case_match; lia.
Qed.

Lemma pow2_pos u : (0 < pow2 u)%Q.
Proof.
  unfold pow2. destruct (0 <=? u) eqn:Hu.
  - apply Z.leb_le in Hu. unfold Qlt; simpl.
    assert (0 < 2 ^ u) by (by apply Z.pow_pos_nonneg). lia.
  - reflexivity.
Qed.

Lemma round64_pos_nonneg n d v :
  0 < n -> 0 < d -> round64_pos n d = Some v -> (0 <= v)%Q.
Proof.
  intros Hn Hd. unfold round64_pos.
  set (u := Z.max _ _).
  destruct (scaled n d u) as [a b] eqn:E.
  destruct (scaled_pos n d u a b Hn Hd E) as [Ha Hb].
  destruct (Qle_bool _ _); [done|]. intros [= <-].
  rewrite Qred_correct.
  pose proof (round_half_even_nonneg a b) as Hm.
  pose proof (pow2_pos u).
  apply Qmult_le_0_compat; [|lra].
  unfold Qle; simpl. lia.
Qed.

Lemma round64_pos_positive n d v :
  0 < n -> 0 < d -> d <= n * 2 ^ 1074 ->
  round64_pos n d = Some v -> (0 < v)%Q.
Proof.
  intros Hn Hd Hg. unfold round64_pos.
  set (e := floor_log2 n d). set (u := Z.max _ _).
  assert (Hu : above_pow2 n d u).
  { unfold u. apply Z.max_case.
    - apply (above_pow2_mono n d _ e); [done|done|lia|].
      by apply above_pow2_floor_log2.
    - unfold above_pow2, scaled. simpl (0 <=? -1074). cbv iota.
      exact Hg. }
  unfold above_pow2 in Hu.
  destruct (scaled n d u) as [a b] eqn:E.
  destruct (scaled_pos n d u a b Hn Hd E) as [Ha Hb].
  destruct (Qle_bool _ _); [done|]. intros [= <-].
  rewrite Qred_correct.
  pose proof (round_half_even_pos a b Hb Hu) as Hm.
  pose proof (pow2_pos u).
  apply Qmult_lt_0_compat; [|done].
  unfold Qlt; simpl. lia.
Qed.

End Rounding.

(** ** The comparators decide the price order *)

Section Comparators.

Lemma on_grid_multiple q :
  on_grid q = true -> exists k, Qnum q * 2 ^ 1074 = k * QDen q.
Proof.
  unfold on_grid. intros H. apply Z.eqb_eq in H.
  apply Z.mod_divide in H; [|done]. destruct H as [k Hk]. by exists k.
Qed.

Lemma Qminus_num a b : Qnum (a - b) = Qnum a * QDen b - Qnum b * QDen a.
Proof. simpl. lia. Qed.

Lemma Qminus_den a b : Zpos (Qden (a - b)) = QDen a * QDen b.
Proof. reflexivity. Qed.

Lemma Qcompare_minus a b : (a ?= b)%Q = (Qnum (a - b) ?= 0).
Proof.
  rewrite Qminus_num. unfold Qcompare.
  rewrite (Z.compare_sub (Qnum a * QDen b)). reflexivity.
Qed.

(** The difference of two binary64 values never rounds to zero, nor
    across it. *)
Lemma sub_sign a b :
  on_grid a = true -> on_grid b = true ->
  gt (round64 (a - b)) zero = gt (Fin a) (Fin b).
Proof.
  intros Ha Hb. unfold gt at 2. rewrite cmp_Fin, Qcompare_minus.
  unfold round64.
  destruct (Qnum (a - b)) as [|n|n] eqn:En.
  - reflexivity.
  - change (Z.pos n ?= 0) with Gt.
    destruct (round64_pos _ _) as [v|] eqn:Ev; [|reflexivity].
    apply round64_pos_positive in Ev; [| done | done |].
    + unfold gt, zero. rewrite cmp_Fin.
      apply Qgt_alt in Ev. by rewrite Ev.
    + rewrite <- En, Qminus_num, Qminus_den.
      destruct (on_grid_multiple a Ha) as [ka Hka].
      destruct (on_grid_multiple b Hb) as [kb Hkb].
      assert (Hn : 0 < Qnum a * QDen b - Qnum b * QDen a)
        by (rewrite <- Qminus_num, En; done).
      set (G := 2 ^ 1074) in *.
      assert (HG : 0 < G) by (by apply Z.pow_pos_nonneg).
      assert (Heq : (Qnum a * QDen b - Qnum b * QDen a) * G
                    = (ka - kb) * (QDen a * QDen b)) by nia.
      rewrite Heq.
      assert (0 < QDen a * QDen b) by done.
      assert (0 < (ka - kb) * (QDen a * QDen b)) by (rewrite <- Heq; nia).
      assert (1 <= ka - kb) by nia.
      nia.
  - change (Z.neg n ?= 0) with Lt.
    destruct (round64_pos _ _) as [v|] eqn:Ev; [|reflexivity].
    apply round64_pos_nonneg in Ev; [| done | done].
    unfold gt, zero. rewrite cmp_Fin.
    destruct (Qcompare_cases (- v) 0) as [[E H]|[[E H]|[E H]]]; rewrite E; try done.
    exfalso. lra.
Qed.

Lemma SortCompare_gt x y :
  binary64 x = true -> binary64 y = true ->
  gt (match sub x y with NaN => zero | v => v end) zero = gt x y.
Proof.
  destruct x as [|[]|a], y as [|[]|b]; try reflexivity.
  simpl. intros Ha Hb. rewrite <- (sub_sign a b Ha Hb).
  by destruct (round64 (a - b)).
Qed.

Lemma by_price_asc_gt a b :
  binary64 (current_price a) = true -> binary64 (current_price b) = true ->
  gt (SortCompare by_price_asc a b) zero = gt (current_price a) (current_price b).
Proof. apply SortCompare_gt. Qed.

Lemma by_price_desc_gt a b :
  binary64 (current_price a) = true -> binary64 (current_price b) = true ->
  gt (SortCompare by_price_desc a b) zero = gt (current_price b) (current_price a).
Proof. intros Ha Hb. by apply SortCompare_gt. Qed.

(** Equal prices compare as equal, whatever the rounding. *)
Lemma sub_eq x y :
  eqb x y = true -> gt (match sub x y with NaN => zero | v => v end) zero = false.
Proof.
  unfold eqb.
  destruct x as [|[]|a], y as [|[]|b]; try done.
  rewrite cmp_Fin, Qcompare_minus. simpl sub. unfold round64.
  destruct (Qnum (a - b)); done.
Qed.

Lemma eqb_trans_sym x y v : eqb x v = true -> eqb y v = true -> eqb x y = true.
Proof.
  unfold eqb.
  destruct x as [|[]|a], y as [|[]|b], v as [|[]|c]; try done.
  rewrite !cmp_Fin.
  destruct (Qcompare_cases a c) as [[E H]|[[E H]|[E H]]]; rewrite E; try done.
  destruct (Qcompare_cases b c) as [[E' H']|[[E' H']|[E' H']]]; rewrite E'; try done.
  intros _ _. assert (Hab : (a == b)%Q) by lra. apply Qeq_alt in Hab. by rewrite Hab.
Qed.

End Comparators.

(** ** The filter/sort engine *)

Lemma List_filter_sublist (p : asset -> bool) l : sublist (List.filter p l) l.
Proof.
  induction l as [|a l IH]; simpl; [constructor|].
  destruct (p a); by constructor.
Qed.

Lemma List_filter_elem_of (p : asset -> bool) l a :
  a ∈ List.filter p l <-> a ∈ l /\ p a = true.
Proof. rewrite !list_elem_of_In. apply filter_In. Qed.

Lemma List_filter_all (p : asset -> bool) l :
  Forall (fun a => p a = true) l -> List.filter p l = l.
Proof.
  induction 1 as [|a l Ha _ IH]; simpl; [done|]. by rewrite Ha, IH.
Qed.

Lemma min_bound_absent s :
  value (document s minPriceInput) = "" -> min_bound s = zero.
Proof. unfold min_bound. by intros ->. Qed.

Lemma max_bound_absent s :
  value (document s maxPriceInput) = "" -> max_bound s = posInf.
Proof. unfold max_bound. by intros ->. Qed.

Lemma in_range_unbounded a :
  ge (current_price a) zero = true -> in_range zero posInf a = true.
Proof.
  unfold in_range. destruct (current_price a) as [|[]|q]; try done.
  intros ->. reflexivity.
Qed.

Section Claims.
Variable toLocaleString : number -> string.

Abbreviation apply := (applyFiltersAndSort toLocaleString).

(** The display list holds exactly the assets of the base list that
    pass the range test, in every sort mode. *)
Lemma applyFiltersAndSort_elem s a :
  a ∈ read (displayAssets (apply s)) (apply s) <->
  a ∈ read (assets s) s /\ in_range (min_bound s) (max_bound s) a = true.
Proof.
  destruct (applyFiltersAndSort_spec toLocaleString s) as (Hd & _).
  rewrite Hd. rewrite <- List_filter_elem_of.
  destruct (sortOrder s); [done| |]; by rewrite sorted_by_Permutation.
Qed.

(** Default mode, in terms of the bounds in force: the display list is
    the base list restricted to the assets with
    [min <= current_price <= max], where [min] and [max] are what the
    code makes of the two inputs ([parseFloat(..) || 0] and
    [parseFloat(..) || Infinity]); the surviving assets keep their
    relative order. *)
Theorem default_sort_is_filter (s : page) (lo hi : string) (base : list asset) :
  sortOrder s = default ->
  value (document s minPriceInput) = lo ->
  value (document s maxPriceInput) = hi ->
  read (assets s) s = base ->
  let min := or_else (parseFloat lo) zero in
  let max := or_else (parseFloat hi) posInf in
  let s' := apply s in
  read (displayAssets s') s' =
    List.filter (fun a => ge (current_price a) min && le (current_price a) max) base /\
  sublist (read (displayAssets s') s') base.
Proof.
  intros Hmode Hlo Hhi Hbase. cbv zeta.
  destruct (applyFiltersAndSort_spec toLocaleString s) as (Hd & _).
  rewrite Hd, Hmode, Hbase. unfold min_bound, max_bound. rewrite Hlo, Hhi.
  split; [reflexivity|]. apply List_filter_sublist.
Qed.

(** C10: with both bound inputs absent, the lower bound is the number
    0, and an asset priced strictly below zero is left out of the
    display list, in every sort mode. *)
Theorem negative_price_excluded (s : page) (a : asset) :
  value (document s minPriceInput) = "" ->
  value (document s maxPriceInput) = "" ->
  a ∈ read (assets s) s ->
  lt (current_price a) zero = true ->
  min_bound s = zero /\ a ∉ read (displayAssets (apply s)) (apply s).
Proof.
  intros Hlo Hhi Ha Hneg.
  split; [by apply min_bound_absent|].
  rewrite applyFiltersAndSort_elem. intros [_ Hr].
  rewrite (min_bound_absent s Hlo) in Hr. unfold in_range in Hr.
  apply andb_true_iff in Hr as [Hr _].
  apply ge_not_lt in Hr. congruence.
Qed.

(** C4, as the code has it: with both bounds absent and a base list
    whose prices are non-negative binary64 numbers, ascending mode yields a
    permutation of the base list with non-decreasing prices, descending
    mode one with non-increasing prices, and in both the assets of any
    one price keep their relative order. *)
Theorem sorted_modes (s : page) :
  value (document s minPriceInput) = "" ->
  value (document s maxPriceInput) = "" ->
  Forall (fun a => ge (current_price a) zero = true /\ binary64 (current_price a) = true)
         (read (assets s) s) ->
  let base := read (assets s) s in
  let up := apply (set_sortOrder asc s) in
  let down := apply (set_sortOrder desc s) in
  (read (displayAssets up) up ≡ₚ base /\
   StronglySorted (fun a b => le (current_price a) (current_price b) = true)
                  (read (displayAssets up) up) /\
   forall v, List.filter (fun a => eqb (current_price a) v) (read (displayAssets up) up)
             = List.filter (fun a => eqb (current_price a) v) base) /\
  (read (displayAssets down) down ≡ₚ base /\
   StronglySorted (fun a b => ge (current_price a) (current_price b) = true)
                  (read (displayAssets down) down) /\
   forall v, List.filter (fun a => eqb (current_price a) v) (read (displayAssets down) down)
             = List.filter (fun a => eqb (current_price a) v) base).
Proof.
  intros Hlo Hhi Hdata. cbv zeta.
  set (base := read (assets s) s) in *.
  set (ok := fun a : asset =>
               binary64 (current_price a) = true /\ current_price a <> NaN).
  assert (Hok : Forall ok base).
  { eapply Forall_impl; [exact Hdata|]. intros a [Hge Hb]. split; [done|].
    by apply ge_not_NaN in Hge. }
  assert (Hkept : forall o, List.filter
             (in_range (min_bound (set_sortOrder o s)) (max_bound (set_sortOrder o s)))
             (read (assets (set_sortOrder o s)) (set_sortOrder o s)) = base).
  { intros o. change (read _ (set_sortOrder o s)) with base.
    change (min_bound (set_sortOrder o s)) with (min_bound s).
    change (max_bound (set_sortOrder o s)) with (max_bound s).
    rewrite (min_bound_absent s Hlo), (max_bound_absent s Hhi).
    apply List_filter_all. eapply Forall_impl; [exact Hdata|].
    intros a [Hge _]. by apply in_range_unbounded. }
  split.
  - destruct (applyFiltersAndSort_spec toLocaleString (set_sortOrder asc s)) as (Hd & _).
    rewrite Hd. change (sortOrder (set_sortOrder asc s)) with asc. cbv iota.
    rewrite (Hkept asc).
    split; [apply sorted_by_Permutation|]. split.
    + apply (sorted_by_sorted _ _ ok); [| | |exact Hok].
      * intros a b c _ _ _. apply le_trans.
      * intros a b [Ha _] [Hb _]. rewrite by_price_asc_gt by done. apply gt_true_le.
      * intros a b [Ha Na] [Hb Nb]. rewrite by_price_asc_gt by done. by apply gt_false_le.
    + intros v. apply sorted_by_filter. intros x y Hx Hy.
      apply sub_eq. by apply (eqb_trans_sym _ _ v).
  - destruct (applyFiltersAndSort_spec toLocaleString (set_sortOrder desc s)) as (Hd & _).
    rewrite Hd. change (sortOrder (set_sortOrder desc s)) with desc. cbv iota.
    rewrite (Hkept desc).
    split; [apply sorted_by_Permutation|]. split.
    + apply (sorted_by_sorted _ _ ok); [| | |exact Hok].
      * intros a b c _ _ _. apply ge_trans.
      * intros a b [Ha _] [Hb _]. rewrite by_price_desc_gt by done.
        rewrite ge_le. apply gt_true_le.
      * intros a b [Ha Na] [Hb Nb]. rewrite by_price_desc_gt by done.
        rewrite ge_le. by apply gt_false_le.
    + intros v. apply sorted_by_filter. intros x y Hx Hy.
      apply sub_eq. by apply (eqb_trans_sym _ _ v).
Qed.

End Claims.

(** ** Classes and the frame of DOM updates *)

Lemma contains_after_add tok e t v a c :
  contains tok (mkElement (if contains tok e then classList e else classList e ++ [tok])
                          t v a c) = true.
Proof.
  unfold contains; simpl.
  destruct (bool_decide (tok ∈ classList e)) eqn:E; apply bool_decide_eq_true.
  - by apply bool_decide_eq_true in E.
  - apply elem_of_app. right. by apply list_elem_of_singleton.
Qed.

Lemma contains_after_remove tok e t v a c :
  contains tok (mkElement (List.filter (fun x => negb (String.eqb x tok)) (classList e))
                          t v a c) = false.
Proof.
  unfold contains; simpl. apply bool_decide_eq_false.
  rewrite list_elem_of_In, filter_In. intros [_ H].
  by rewrite String.eqb_refl in H.
Qed.

Lemma hidden_classList_add id s : hidden id (classList_add id "hidden" s) = true.
Proof.
  unfold hidden, classList_add, on_element; simpl. unfold upd.
  rewrite decide_True by done. apply contains_after_add.
Qed.

Lemma hidden_classList_remove id s : hidden id (classList_remove id "hidden" s) = false.
Proof.
  unfold hidden, classList_remove, on_element; simpl. unfold upd.
  rewrite decide_True by done. apply contains_after_remove.
Qed.

Lemma document_on_element_ne id id' f s :
  id' <> id -> document (on_element id f s) id' = document s id'.
Proof. intros H. simpl. unfold upd. by rewrite decide_False. Qed.

Lemma document_on_element_eq id f s :
  document (on_element id f s) id = f (document s id).
Proof. simpl. unfold upd. by rewrite decide_True. Qed.

Lemma hidden_on_element_ne id id' f s :
  id' <> id -> hidden id' (on_element id f s) = hidden id' s.
Proof. intros H. unfold hidden. by rewrite document_on_element_ne. Qed.

Section Handlers.
Variable toLocaleString : number -> string.

Abbreviation apply := (applyFiltersAndSort toLocaleString).
Abbreviation cycle := (cycleSort toLocaleString).

(** A run of the engine keeps the inputs, the label, the mode and the
    base list; [assets] still refers to a live array. *)
Lemma applyFiltersAndSort_keeps s :
  (assets s < length (store s))%nat ->
  let s' := apply s in
  (assets s' < length (store s'))%nat /\
  assets s' = assets s /\
  (forall r, (r < length (store s))%nat -> read r s' = read r s) /\
  read (assets s') s' = read (assets s) s /\
  sortOrder s' = sortOrder s /\
  min_bound s' = min_bound s /\ max_bound s' = max_bound s /\
  textContent (document s' sortLabel) = textContent (document s sortLabel).
Proof.
  intros Hlive. cbv zeta.
  destruct (applyFiltersAndSort_spec toLocaleString s)
    as (_ & [k Hk] & Ha & Ho & _ & _ & Hdoc & _).
  assert (Hold : forall r, (r < length (store s))%nat -> read r (apply s) = read r s).
  { intros r Hr. unfold read. by rewrite Hk, lookup_app_l. }
  repeat split; try done.
  - rewrite Ha, Hk, length_app. lia.
  - rewrite Ha. by apply Hold.
  - unfold min_bound. by rewrite Hdoc.
  - unfold max_bound. by rewrite Hdoc.
  - by rewrite Hdoc.
Qed.

(** [cycleSort] sets the next mode and its label, then runs the engine. *)
Lemma cycleSort_unfold s :
  let o := match sortOrder s with default => desc | desc => asc | asc => default end in
  let label := match o with
               | desc => "Sort: High to Low"
               | asc => "Sort: Low to High"
               | default => "Sort: Default"
               end in
  cycle s = apply (set_textContent sortLabel label (set_sortOrder o s)).
Proof. unfold cycleSort. by destruct (sortOrder s). Qed.

Lemma cycleSort_step s :
  let o := match sortOrder s with default => desc | desc => asc | asc => default end in
  sortOrder (cycle s) = o /\
  textContent (document (cycle s) sortLabel) =
    match o with
    | desc => "Sort: High to Low"
    | asc => "Sort: Low to High"
    | default => "Sort: Default"
    end /\
  ((assets s < length (store s))%nat ->
   (assets (cycle s) < length (store (cycle s)))%nat /\
   assets (cycle s) = assets s /\
   (forall r, (r < length (store s))%nat -> read r (cycle s) = read r s) /\
   read (assets (cycle s)) (cycle s) = read (assets s) s /\
   min_bound (cycle s) = min_bound s /\ max_bound (cycle s) = max_bound s).
Proof.
  cbv zeta. rewrite cycleSort_unfold. cbv zeta.
  set (o := match sortOrder s with default => desc | desc => asc | asc => default end).
  set (t := set_textContent sortLabel _ (set_sortOrder o s)).
  destruct (applyFiltersAndSort_spec toLocaleString t)
    as (_ & _ & _ & Ho & _ & _ & Hdoc & _).
  split; [by rewrite Ho|]. split.
  - rewrite Hdoc by done. unfold t, set_textContent. by rewrite document_on_element_eq.
  - intros Hlive.
    destruct (applyFiltersAndSort_keeps t Hlive) as (H1 & H2 & H3 & H4 & _ & H6 & H7 & _).
    repeat split; try done.
Qed.

Lemma relabel_frame o label s :
  let t := set_textContent sortLabel label (set_sortOrder o s) in
  sortOrder t = o /\ min_bound t = min_bound s /\ max_bound t = max_bound s /\
  read (assets t) t = read (assets s) s.
Proof.
  cbv zeta. split; [reflexivity|]. split; [|split; [|reflexivity]].
  - unfold min_bound, set_textContent. by rewrite document_on_element_ne.
  - unfold max_bound, set_textContent. by rewrite document_on_element_ne.
Qed.

(** The display list the engine produces depends only on the mode, the
    bounds and the base list. *)
Lemma display_determined s t :
  sortOrder s = sortOrder t -> min_bound s = min_bound t -> max_bound s = max_bound t ->
  read (assets s) s = read (assets t) t ->
  read (displayAssets (apply s)) (apply s) = read (displayAssets (apply t)) (apply t).
Proof.
  intros Ho Hmin Hmax Hb.
  destruct (applyFiltersAndSort_spec toLocaleString s) as (-> & _).
  destruct (applyFiltersAndSort_spec toLocaleString t) as (-> & _).
  by rewrite Ho, Hmin, Hmax, Hb.
Qed.

Lemma applyFiltersAndSort_idem_display s :
  (assets s < length (store s))%nat ->
  read (displayAssets (apply (apply s))) (apply (apply s))
  = read (displayAssets (apply s)) (apply s).
Proof.
  intros Hlive.
  destruct (applyFiltersAndSort_keeps s Hlive) as (_ & _ & _ & H4 & H5 & H6 & H7 & _).
  by apply display_determined.
Qed.

(** C5: [cycleSort] moves the mode along default -> desc -> asc ->
    default and sets the label of the new mode; on a page whose label
    and display list are those of its current mode, three calls bring
    back the mode, the label and the display list. *)
Theorem cycleSort_rotation (s : page) :
  (assets s < length (store s))%nat ->
  textContent (document s sortLabel) =
    match sortOrder s with
    | default => "Sort: Default"
    | desc => "Sort: High to Low"
    | asc => "Sort: Low to High"
    end ->
  read (displayAssets s) s = read (displayAssets (apply s)) (apply s) ->
  (forall t,
     sortOrder (cycle t) =
       match sortOrder t with default => desc | desc => asc | asc => default end /\
     textContent (document (cycle t) sortLabel) =
       match sortOrder (cycle t) with
       | default => "Sort: Default"
       | desc => "Sort: High to Low"
       | asc => "Sort: Low to High"
       end) /\
  let s3 := cycle (cycle (cycle s)) in
  sortOrder s3 = sortOrder s /\
  textContent (document s3 sortLabel) = textContent (document s sortLabel) /\
  read (displayAssets s3) s3 = read (displayAssets s) s /\
  read (assets s3) s3 = read (assets s) s.
Proof.
  intros Hlive Hlabel Hdisp. split.
  { intros t. destruct (cycleSort_step t) as (Ho & Hl & _).
    split; [done|]. rewrite Hl, Ho. by destruct (sortOrder t). }
  cbv zeta.
  destruct (cycleSort_step s) as (Ho1 & Hl1 & K1).
  destruct (K1 Hlive) as (L1 & A1 & _ & B1 & Mn1 & Mx1).
  destruct (cycleSort_step (cycle s)) as (Ho2 & Hl2 & K2).
  destruct (K2 L1) as (L2 & A2 & _ & B2 & Mn2 & Mx2).
  destruct (cycleSort_step (cycle (cycle s))) as (Ho3 & Hl3 & K3).
  destruct (K3 L2) as (L3 & A3 & _ & B3 & Mn3 & Mx3).
  assert (Hmode : sortOrder (cycle (cycle (cycle s))) = sortOrder s).
  { rewrite Ho3, Ho2, Ho1. by destruct (sortOrder s). }
  split; [exact Hmode|]. split; [|split].
  - rewrite Hl3, Ho2, Ho1, Hlabel. by destruct (sortOrder s).
  - rewrite Hdisp.
    rewrite (cycleSort_unfold (cycle (cycle s))). cbv zeta.
    match goal with
    | |- context [set_textContent sortLabel ?l (set_sortOrder ?o ?t)] =>
        destruct (relabel_frame o l t) as (R1 & R2 & R3 & R4)
    end.
    apply display_determined.
    + rewrite R1, Ho2, Ho1. by destruct (sortOrder s).
    + by rewrite R2, Mn2, Mn1.
    + by rewrite R3, Mx2, Mx1.
    + by rewrite R4, B2, B1.
  - by rewrite B3, B2, B1.
Qed.

End Handlers.

(** ** Fetching and the base list *)

Lemma hidden_hideLoader s : hidden loader (hideLoader s) = true.
Proof.
  unfold hideLoader, classList_remove. rewrite hidden_on_element_ne by done.
  apply hidden_classList_add.
Qed.

Lemma hidden_fetchAssets_begin s : hidden loader (fetchAssets_begin s) = false.
Proof.
  unfold fetchAssets_begin, hideError, showLoader, classList_add.
  rewrite !hidden_on_element_ne by done.
  apply hidden_classList_remove.
Qed.

Lemma on_fetch_error_shown err s :
  let s' := hideLoader (on_fetch_error err s) in
  store s' = store s /\ assets s' = assets s /\
  textContent (document s' errorText) = fetch_error_message /\
  hidden errorContainer s' = false.
Proof.
  cbv zeta. split; [reflexivity|]. split; [reflexivity|]. split.
  - unfold hideLoader, on_fetch_error, showError, classList_remove, classList_add.
    rewrite !document_on_element_ne by done.
    unfold set_textContent. by rewrite document_on_element_eq.
  - unfold hideLoader, classList_remove, classList_add.
    rewrite !hidden_on_element_ne by done.
    unfold on_fetch_error, showError. apply hidden_classList_remove.
Qed.

Section Fetching.
Variable toLocaleString : number -> string.

Abbreviation apply := (applyFiltersAndSort toLocaleString).
Abbreviation settle := (fetchAssets_settle toLocaleString).

(** C6: when the request is rejected, answered with a non-success
    status, or answered with a body that is not JSON, the base list and
    the whole array store are as before the call, the error banner
    shows the generic message, and the loader, shown when the call
    starts, is hidden when it ends; it is hidden after a success too. *)
Theorem failed_fetch (r : option response) (s : page) :
  match r with
  | None => True
  | Some resp => ok resp = false \/ json resp = None
  end ->
  let s1 := fetchAssets_begin s in
  let s2 := settle r s1 in
  hidden loader s1 = false /\
  assets s2 = assets s /\ store s2 = store s /\
  read (assets s2) s2 = read (assets s) s /\
  textContent (document s2 errorText) = fetch_error_message /\
  hidden errorContainer s2 = false /\
  hidden loader s2 = true /\
  forall r', hidden loader (settle r' s1) = true.
Proof.
  intros Hfail. cbv zeta.
  split; [apply hidden_fetchAssets_begin|].
  assert (Hall : forall r', hidden loader (settle r' (fetchAssets_begin s)) = true).
  { intros r'. unfold fetchAssets_settle. apply hidden_hideLoader. }
  assert (Herr : exists err,
            settle r (fetchAssets_begin s) = hideLoader (on_fetch_error err (fetchAssets_begin s))).
  { unfold fetchAssets_settle. destruct r as [resp|]; [|by eexists].
    destruct Hfail as [Hok|Hjson].
    - rewrite Hok. by eexists.
    - destruct (ok resp); simpl; [|by eexists]. rewrite Hjson. by eexists. }
  destruct Herr as [err Herr].
  destruct (on_fetch_error_shown err (fetchAssets_begin s)) as (Hs & Ha & Ht & Hh).
  rewrite Herr.
  repeat split; try done.
  apply hidden_hideLoader.
Qed.

Lemma clearFilters_unfold s :
  clearFilters toLocaleString s =
  apply (set_textContent sortLabel "Sort: Default"
           (set_sortOrder default (set_value maxPriceInput "" (set_value minPriceInput "" s)))).
Proof. reflexivity. Qed.




End Fetching.

(** ** Theme *)

Lemma getAttribute_setAttribute id k v s :
  getAttribute id k (setAttribute id k v s) = Some v.
Proof.
  unfold getAttribute, setAttribute. rewrite document_on_element_eq.
  simpl. apply lookup_insert_eq.
Qed.

Lemma toggleTheme_spec s :
  let new := if bool_decide (getAttribute body "data-theme" s = Some "light")
             then "dark" else "light" in
  let s' := toggleTheme s in
  getAttribute body "data-theme" s' = Some new /\
  localStorage s' !! "highlite-theme" = Some new /\
  hidden sunIcon s' = String.eqb new "dark" /\
  hidden moonIcon s' = negb (String.eqb new "dark").
Proof.
  cbv zeta. unfold toggleTheme.
  destruct (bool_decide (getAttribute body "data-theme" s = Some "light")).
  - change ("dark" =? "dark")%string with true. cbv iota.
    split; [|split; [|split]].
    + unfold getAttribute, classList_remove, classList_add.
      rewrite !document_on_element_ne by done.
      apply (getAttribute_setAttribute body "data-theme").
    + simpl. apply lookup_insert_eq.
    + unfold classList_remove. rewrite hidden_on_element_ne by done.
      apply hidden_classList_add.
    + apply hidden_classList_remove.
  - change ("light" =? "dark")%string with false. cbv iota.
    split; [|split; [|split]].
    + unfold getAttribute, classList_remove, classList_add.
      rewrite !document_on_element_ne by done.
      apply (getAttribute_setAttribute body "data-theme").
    + simpl. apply lookup_insert_eq.
    + unfold classList_add. rewrite hidden_on_element_ne by done.
      apply hidden_classList_remove.
    + apply hidden_classList_add.
Qed.

(** [init] touches the theme only when ["dark"] was saved. *)
Lemma init_without_saved_dark s :
  localStorage s !! "highlite-theme" <> Some "dark" ->
  getAttribute body "data-theme" (init s) = getAttribute body "data-theme" s /\
  localStorage (init s) = localStorage s /\
  hidden sunIcon (init s) = hidden sunIcon s /\
  hidden moonIcon (init s) = hidden moonIcon s.
Proof.
  intros H. unfold init. rewrite bool_decide_eq_false_2 by done.
  unfold fetchAssets_begin, hideError, showLoader, classList_add, classList_remove.
  split; [|split; [reflexivity|split]].
  - unfold getAttribute. by rewrite !document_on_element_ne.
  - by rewrite !hidden_on_element_ne.
  - by rewrite !hidden_on_element_ne.
Qed.

(** C9: when the [data-theme] attribute is neither ["light"] nor
    ["dark"], [toggleTheme] selects the light theme: attribute and
    stored value become ["light"], the sun icon is shown and the moon
    icon hidden. *)
Theorem toggle_from_unset (s : page) :
  getAttribute body "data-theme" s <> Some "light" ->
  getAttribute body "data-theme" s <> Some "dark" ->
  let s' := toggleTheme s in
  getAttribute body "data-theme" s' = Some "light" /\
  localStorage s' !! "highlite-theme" = Some "light" /\
  hidden sunIcon s' = false /\
  hidden moonIcon s' = true.
Proof.
  intros Hl _. cbv zeta.
  pose proof (toggleTheme_spec s) as H. cbv zeta in H.
  rewrite bool_decide_eq_false_2 in H by done. exact H.
Qed.

(** The round trip on a settled page: when the [data-theme] attribute
    is ["light"] or ["dark"], with the stored value (absent read as light)
    and the two icons in agreement with it, two calls of [toggleTheme]
    bring back the attribute, the stored theme and the visibility of
    both icons. *)
Theorem toggle_twice (s : page) (dark : bool) :
  getAttribute body "data-theme" s = Some (if dark then "dark" else "light") ->
  bool_decide (localStorage s !! "highlite-theme" = Some "dark") = dark ->
  hidden sunIcon s = dark ->
  hidden moonIcon s = negb dark ->
  let s2 := toggleTheme (toggleTheme s) in
  getAttribute body "data-theme" s2 = getAttribute body "data-theme" s /\
  bool_decide (localStorage s2 !! "highlite-theme" = Some "dark")
    = bool_decide (localStorage s !! "highlite-theme" = Some "dark") /\
  localStorage s2 !! "highlite-theme" = Some (if dark then "dark" else "light") /\
  hidden sunIcon s2 = hidden sunIcon s /\
  hidden moonIcon s2 = hidden moonIcon s.
Proof.
  intros Hattr Hsaved Hsun Hmoon. cbv zeta.
  destruct (toggleTheme_spec s) as (A1 & _).
  destruct (toggleTheme_spec (toggleTheme s)) as (A2 & S2 & I2 & M2).
  rewrite A1 in A2, S2, I2, M2. rewrite Hattr in A2, S2, I2, M2.
  rewrite A2, S2, I2, M2, Hattr, Hsaved, Hsun, Hmoon.
  by destruct dark.
Qed.

(** ** Two decimals *)

Section Digits.

Lemma is_digit_digit_char d : 0 <= d < 10 -> is_digit (digit_char d) = true.
Proof.
  intros H.
  assert (d = 0 \/ d = 1 \/ d = 2 \/ d = 3 \/ d = 4 \/ d = 5 \/ d = 6 \/ d = 7 \/
          d = 8 \/ d = 9) as Hd by lia.
  repeat (destruct Hd as [->|Hd]; [reflexivity|]). by subst.
Qed.

Lemma is_digit_not_minus c : is_digit c = true -> Ascii.eqb c "-" = false.
Proof.
  intros H. destruct (Ascii.eqb_spec c "-") as [->|]; [discriminate|done].
Qed.

Lemma all_digits_app a b : all_digits (a +:+ b) = all_digits a && all_digits b.
Proof.
  induction a as [|c a IH]; simpl; [done|]. by rewrite IH, andb_assoc.
Qed.

Lemma to_digits_all fuel n acc :
  0 <= n -> all_digits acc = true -> all_digits (to_digits fuel n acc) = true.
Proof.
  revert n acc. induction fuel as [|fuel IH]; intros n acc Hn Hacc; simpl; [done|].
  assert (Hc : all_digits (String (digit_char (n mod 10)) acc) = true).
  { simpl. rewrite Hacc, is_digit_digit_char; [done|]. by apply Z.mod_pos_bound. }
  destruct (n <? 10); [done|].
  apply IH; [|done]. apply Z.div_pos; lia.
Qed.

Lemma to_digits_length fuel n acc :
  (String.length acc < String.length (to_digits (S fuel) n acc))%nat.
Proof.
  revert n acc. induction fuel as [|fuel IH]; intros n acc.
  - simpl. destruct (n <? 10); simpl; lia.
  - change (to_digits (S (S fuel)) n acc) with
      (let acc' := String (digit_char (n mod 10)) acc in
       if n <? 10 then acc' else to_digits (S fuel) (n / 10) acc').
    cbv zeta. destruct (n <? 10); [simpl; lia|].
    etransitivity; [|apply IH]. simpl. lia.
Qed.

Lemma decimal_digits_all n : 0 <= n -> all_digits (decimal_digits n) = true.
Proof. intros Hn. by apply to_digits_all. Qed.

Lemma decimal_digits_length n : (1 <= String.length (decimal_digits n))%nat.
Proof.
  unfold decimal_digits.
  pose proof (to_digits_length (Z.to_nat (Z.log2 n)) n EmptyString) as H.
  simpl String.length in H at 1. lia.
Qed.

Lemma digit_val_digit_char d : 0 <= d < 10 -> digit_val (digit_char d) = d.
Proof.
  intros H.
  assert (d = 0 \/ d = 1 \/ d = 2 \/ d = 3 \/ d = 4 \/ d = 5 \/ d = 6 \/ d = 7 \/
          d = 8 \/ d = 9) as Hd by lia.
  repeat (destruct Hd as [->|Hd]; [reflexivity|]). by subst.
Qed.

Lemma to_digits_value fuel n acc :
  0 <= n < 2 ^ Z.of_nat fuel ->
  digits_value 0 (to_digits fuel n acc) = digits_value n acc.
Proof.
  revert n acc. induction fuel as [|fuel IH]; intros n acc Hn.
  - simpl in *. by replace n with 0 by lia.
  - simpl to_digits. destruct (n <? 10) eqn:E.
    + apply Z.ltb_lt in E. rewrite Z.mod_small by lia.
      simpl. rewrite digit_val_digit_char by lia. reflexivity.
    + apply Z.ltb_ge in E. rewrite IH.
      * simpl. rewrite digit_val_digit_char by (by apply Z.mod_pos_bound).
        f_equal. rewrite (Z.div_mod n 10) at 3 by lia. reflexivity.
      * rewrite Nat2Z.inj_succ, Z.pow_succ_r in Hn by lia.
        split; [apply Z.div_pos; lia|].
        apply Z.div_lt_upper_bound; lia.
Qed.

(** The digits printed for [n] read back as [n]. *)
Lemma decimal_digits_value n : 0 <= n -> digits_value 0 (decimal_digits n) = n.
Proof.
  intros Hn. unfold decimal_digits. rewrite to_digits_value; [reflexivity|].
  split; [done|].
  destruct (Z.eq_dec n 0) as [->|Hne]; [reflexivity|].
  rewrite Nat2Z.inj_succ, Z2Nat.id by apply Z.log2_nonneg.
  apply Z.log2_spec. lia.
Qed.

Lemma all_digits_zeros k : all_digits (zeros k) = true.
Proof. induction k; simpl; done. Qed.

Lemma length_zeros k : String.length (zeros k) = k.
Proof. induction k; simpl; [done|]. by rewrite IHk. Qed.

Lemma length_app_string a b :
  String.length (a +:+ b) = (String.length a + String.length b)%nat.
Proof. induction a as [|c a IH]; simpl; [done|]. by rewrite IH. Qed.

(** Cutting a string of digits before its last two characters. *)
Lemma substring_digits m j :
  all_digits m = true -> String.length m = S (S (S j)) ->
  exists ip d1 d2,
    substring 0 (String.length m - 2) m = ip /\
    substring (String.length m - 2) 2 m = String d1 (String d2 EmptyString) /\
    all_digits ip = true /\ is_empty ip = false /\
    is_digit d1 = true /\ is_digit d2 = true.
Proof.
  revert m. induction j as [|j IH]; intros m Hm Hlen.
  - destruct m as [|c0 [|c1 [|c2 [|]]]]; try discriminate.
    simpl in Hm. repeat (apply andb_true_iff in Hm as [? Hm]).
    exists (String c0 EmptyString), c1, c2. simpl. by rewrite H.
  - destruct m as [|c m]; [discriminate|].
    simpl in Hm. apply andb_true_iff in Hm as [Hc Hm].
    injection Hlen as Hlen.
    destruct (IH m Hm Hlen) as (ip & d1 & d2 & E1 & E2 & Hip & _ & Hd1 & Hd2).
    exists (String c ip), d1, d2.
    rewrite Hlen in E1, E2. simpl in E1, E2.
    replace (String.length (String c m) - 2)%nat with (S (S j)) by (simpl; lia).
    simpl. rewrite E1, E2. simpl. by rewrite Hc, Hip.
Qed.

Lemma span_digits_point ip rest :
  all_digits ip = true -> span_digits (ip +:+ String "." rest) = (ip, String "." rest).
Proof.
  induction ip as [|c ip IH]; simpl; [done|].
  intros H. apply andb_true_iff in H as [Hc H]. by rewrite Hc, IH.
Qed.

Lemma two_decimals_shape (neg : bool) ip d1 d2 :
  all_digits ip = true -> is_empty ip = false ->
  is_digit d1 = true -> is_digit d2 = true ->
  two_decimals ((if neg then "-" else "") +:+ ip +:+ "." +:+ String d1 (String d2 EmptyString))
  = true.
Proof.
  intros Hip Hne Hd1 Hd2. unfold two_decimals.
  assert (Hbody : unsigned_two_decimals (ip +:+ "." +:+ String d1 (String d2 EmptyString))
                  = true).
  { unfold unsigned_two_decimals.
    change (ip +:+ "." +:+ String d1 (String d2 EmptyString))
      with (ip +:+ String "." (String d1 (String d2 EmptyString))).
    rewrite span_digits_point by done. by rewrite Hne, Hd1, Hd2. }
  destruct neg; [exact Hbody|].
  change ("" +:+ ?x) with x.
  destruct ip as [|c ip]; [discriminate|].
  simpl in Hip. apply andb_true_iff in Hip as [Hc Hip].
  change (String c ip +:+ ?x) with (String c (ip +:+ x)) in *.
  unfold strip_minus. by rewrite (is_digit_not_minus c Hc).
Qed.

(** A finite number below [10^21] in magnitude prints with exactly
    two decimals. *)
Lemma toFixed2_two_decimals q :
  (Qabs q < inject_Z (10 ^ 21))%Q -> two_decimals (toFixed2 (Fin q)) = true.
Proof.
  intros Hq. unfold toFixed2.
  assert (Hle : Qle_bool (inject_Z (10 ^ 21)) (Qabs q) = false).
  { destruct (Qle_bool _ _) eqn:E; [|done].
    apply Qle_bool_iff in E. exfalso. lra. }
  rewrite Hle.
  set (n := Qfloor (Qabs q * 100 + (1 # 2))).
  assert (Hn : 0 <= n).
  { change 0 with (Qfloor 0). apply Qfloor_resp_le.
    pose proof (Qabs_nonneg q). lra. }
  set (m := decimal_digits n).
  set (m' := if (String.length m <=? 2)%nat then zeros (3 - String.length m) +:+ m else m).
  assert (Hm : all_digits m' = true).
  { unfold m'. destruct (_ <=? _)%nat.
    - rewrite all_digits_app, all_digits_zeros. by apply decimal_digits_all.
    - by apply decimal_digits_all. }
  assert (Hlen : exists j, String.length m' = S (S (S j))).
  { pose proof (decimal_digits_length n) as H1. fold m in H1.
    unfold m'. destruct (String.length m <=? 2)%nat eqn:E.
    - apply Nat.leb_le in E. exists 0%nat.
      rewrite length_app_string, length_zeros. lia.
    - apply Nat.leb_gt in E. exists (String.length m - 3)%nat. lia. }
  destruct Hlen as [j Hlen].
  destruct (substring_digits m' j Hm Hlen) as (ip & d1 & d2 & E1 & E2 & Hip & Hne & Hd1 & Hd2).
  rewrite E1, E2.
  destruct (Qlt_le_dec q 0).
  - by apply (two_decimals_shape true).
  - by apply (two_decimals_shape false).
Qed.

End Digits.

(** ** Rendering *)

Lemma string_app_assoc (a b c : string) : (a +:+ b) +:+ c = a +:+ b +:+ c.
Proof.
  induction a as [|x a IH]; [done|].
  change (String x ((a +:+ b) +:+ c) = String x (a +:+ b +:+ c)). by f_equal.
Qed.

Section Rendering.
Variable toLocaleString : number -> string.

Abbreviation render := (renderAssets toLocaleString).
Abbreviation card' := (card toLocaleString).

(** C7, as the code has it: an empty display list renders as the
    no-results message alone, any other as one card per asset in
    display-list order, whatever the grid held before; a card shows the
    colour class [positive] and a leading [+] exactly when the change
    is [>= 0], [negative] and no sign otherwise; and the change of an
    asset whose 24-hour change is finite and below [10^21] in magnitude
    is printed with exactly two decimals. *)
Theorem render_cards (s : page) (a : asset) (q : Q) :
  a ∈ read (displayAssets s) s ->
  price_change_percentage_24h a = Fin q ->
  (Qabs q < inject_Z (10 ^ 21))%Q ->
  (forall t,
     children (document (render t) assetGrid) =
       match read (displayAssets t) t with
       | [] => [Markup no_results_markup]
       | l => map card' l
       end) /\
  (forall b,
     let change := price_change_percentage_24h b in
     card' b =
       Div "asset-card"
           (card_top toLocaleString b +:+
            (if ge change zero then "positive" else "negative") +:+ ")" +:+ dq +:+ ">" +:+
            (if ge change zero then "+" else "") +:+ toFixed2 change +:+ "%" +:+
            card_bottom)) /\
  card' a ∈ children (document (render s) assetGrid) /\
  two_decimals (toFixed2 (price_change_percentage_24h a)) = true.
Proof.
  intros Ha Hq Hlt. split; [|split; [|split]].
  - intros t. rewrite renderAssets_children. unfold rendered.
    by destruct (read (displayAssets t) t).
  - intros b. cbv zeta. unfold card, card_innerHTML, change_text, colorClass, sign.
    by rewrite !string_app_assoc.
  - rewrite renderAssets_children. unfold rendered.
    destruct (read (displayAssets s) s) as [|x l] eqn:E.
    + by apply elem_of_nil in Ha.
    + by apply list_elem_of_fmap_2.
  - rewrite Hq. by apply toFixed2_two_decimals.
Qed.

(** C2, at the input where the code departs from it: the maximum
    input ["0"] is numeric, [parseFloat] reads it as 0, yet the upper
    bound in force is [Infinity] and assets priced above 0 stay in the
    display list. *)
Theorem zero_max_is_ignored :
  let s := with_inputs "" "0" (with_assets [btc; usdt] page0) in
  let s' := applyFiltersAndSort toLocaleString s in
  parseFloat "0" = Fin 0 /\
  max_bound s = posInf /\
  le (current_price btc) (parseFloat "0") = false /\
  read (displayAssets s') s' = [btc; usdt].
Proof.
  cbv zeta. split; [reflexivity|]. split; [reflexivity|]. split; [reflexivity|].
  destruct (applyFiltersAndSort_spec toLocaleString
              (with_inputs "" "0" (with_assets [btc; usdt] page0))) as (-> & _).
  reflexivity.
Qed.

End Rendering.

(** ** The theorems at concrete pages *)

Lemma default_sort_is_filter_witness :
  let s := with_inputs "1" "3000" (with_assets market page0) in
  let s' := applyFiltersAndSort toLocaleString_en_US s in
  sortOrder s = default /\
  read (displayAssets s') s' = [eth; usdt; usdc] /\
  sublist [eth; usdt; usdc] market.
Proof.
  cbv zeta. split; [reflexivity|].
  pose proof (default_sort_is_filter toLocaleString_en_US
                (with_inputs "1" "3000" (with_assets market page0)) "1" "3000" market
                eq_refl eq_refl eq_refl eq_refl) as [H1 H2].
  rewrite H1 in H2 |- *. split; [reflexivity|exact H2].
Defined.

Lemma negative_price_excluded_witness :
  let s := with_assets [debt; btc] page0 in
  let s' := applyFiltersAndSort toLocaleString_en_US s in
  lt (current_price debt) zero = true /\
  min_bound s = zero /\ debt ∉ read (displayAssets s') s'.
Proof.
  cbv zeta. split; [reflexivity|].
  apply (negative_price_excluded toLocaleString_en_US (with_assets [debt; btc] page0) debt);
    [reflexivity | reflexivity | | reflexivity].
  change (debt ∈ [debt; btc]). apply list_elem_of_here.
Defined.

Lemma sorted_modes_witness :
  let s := with_assets market page0 in
  let up := applyFiltersAndSort toLocaleString_en_US (set_sortOrder asc s) in
  let down := applyFiltersAndSort toLocaleString_en_US (set_sortOrder desc s) in
  read (displayAssets up) up = [doge; usdt; usdc; eth; btc] /\
  read (displayAssets down) down = [btc; eth; usdt; usdc; doge] /\
  read (displayAssets up) up ≡ₚ market /\
  read (displayAssets down) down ≡ₚ market.
Proof.
  cbv zeta. split; [reflexivity|]. split; [reflexivity|].
  assert (Hdata : Forall (fun a => ge (current_price a) zero = true /\
                                   binary64 (current_price a) = true)
                         (read (assets (with_assets market page0)) (with_assets market page0))).
  { change (read _ _) with market. unfold market.
    repeat (apply List.Forall_cons; [split; vm_compute; reflexivity|]).
    apply List.Forall_nil. }
  destruct (sorted_modes toLocaleString_en_US (with_assets market page0)
              eq_refl eq_refl Hdata) as ((Hup & _) & (Hdown & _)).
  split; [exact Hup|exact Hdown].
Defined.

Lemma cycleSort_rotation_witness :
  let s := clearFilters toLocaleString_en_US (with_assets market page0) in
  let s3 := cycleSort toLocaleString_en_US
              (cycleSort toLocaleString_en_US (cycleSort toLocaleString_en_US s)) in
  sortOrder s = default /\
  textContent (document s sortLabel) = "Sort: Default" /\
  read (displayAssets s) s = market /\
  sortOrder s3 = default /\
  textContent (document s3 sortLabel) = "Sort: Default" /\
  read (displayAssets s3) s3 = market.
Proof.
  cbv zeta.
  assert (Hs : read (displayAssets (clearFilters toLocaleString_en_US (with_assets market page0)))
                    (clearFilters toLocaleString_en_US (with_assets market page0)) = market)
    by (vm_compute; reflexivity).
  assert (Hl : textContent (document (clearFilters toLocaleString_en_US
                                        (with_assets market page0)) sortLabel)
               = "Sort: Default") by (vm_compute; reflexivity).
  destruct (cycleSort_rotation toLocaleString_en_US
              (clearFilters toLocaleString_en_US (with_assets market page0)))
    as (_ & H1 & H2 & H3 & _).
  - vm_compute. lia.
  - vm_compute. reflexivity.
  - vm_compute. reflexivity.
  - rewrite H1, H2, H3, Hs, Hl. repeat split; reflexivity.
Defined.

Lemma failed_fetch_witness :
  let r := Some (mkResponse false 500 "Internal Server Error" None) in
  let s2 := fetchAssets toLocaleString_en_US r (with_assets market page0) in
  read (assets s2) s2 = market /\
  textContent (document s2 errorText) = fetch_error_message /\
  hidden errorContainer s2 = false /\
  hidden loader s2 = true.
Proof.
  cbv zeta.
  destruct (failed_fetch toLocaleString_en_US
              (Some (mkResponse false 500 "Internal Server Error" None))
              (with_assets market page0))
    as (_ & _ & _ & H4 & H5 & H6 & H7 & _).
  - left. reflexivity.
  - unfold fetchAssets. rewrite H4, H5, H6, H7. repeat split; reflexivity.
Defined.


Lemma toggle_from_unset_witness :
  let s := init fresh_page in
  getAttribute body "data-theme" s = None /\
  getAttribute body "data-theme" (toggleTheme s) = Some "light" /\
  localStorage (toggleTheme s) !! "highlite-theme" = Some "light" /\
  hidden sunIcon (toggleTheme s) = false /\
  hidden moonIcon (toggleTheme s) = true.
Proof.
  cbv zeta. split; [reflexivity|].
  apply (toggle_from_unset (init fresh_page)); discriminate.
Defined.

Lemma toggle_twice_witness :
  let s := toggleTheme fresh_page in
  let s2 := toggleTheme (toggleTheme s) in
  getAttribute body "data-theme" s = Some "light" /\
  getAttribute body "data-theme" s2 = Some "light" /\
  localStorage s2 !! "highlite-theme" = Some "light" /\
  hidden sunIcon s2 = false /\ hidden moonIcon s2 = true.
Proof.
  cbv zeta.
  destruct (toggle_twice (toggleTheme fresh_page) false)
    as (H1 & _ & H3 & H4 & H5); try (vm_compute; reflexivity).
  split; [vm_compute; reflexivity|].
  rewrite H1, H3, H4, H5. repeat split; vm_compute; reflexivity.
Defined.

(** Two calls from a page where no theme has been saved and [init]
    has applied none: before, nothing is stored (read as light)
    and the sun icon is shown; after two calls the stored value is
    ["dark"] and the sun icon is hidden. *)
Lemma toggle_twice_fresh_page :
  let s := init fresh_page in
  let s2 := toggleTheme (toggleTheme s) in
  getAttribute body "data-theme" s = None /\
  localStorage s !! "highlite-theme" = None /\
  hidden sunIcon s = false /\
  hidden moonIcon s = true /\
  getAttribute body "data-theme" s2 = Some "dark" /\
  localStorage s2 !! "highlite-theme" = Some "dark" /\
  hidden sunIcon s2 = true /\
  hidden moonIcon s2 = false /\
  ~ (bool_decide (localStorage s2 !! "highlite-theme" = Some "dark")
       = bool_decide (localStorage s !! "highlite-theme" = Some "dark") /\
     hidden sunIcon s2 = hidden sunIcon s /\
     hidden moonIcon s2 = hidden moonIcon s).
Proof.
  cbv zeta. repeat (split; [vm_compute; reflexivity|]).
  intros (_ & H & _). vm_compute in H. discriminate.
Qed.

Lemma render_cards_witness :
  let s := applyFiltersAndSort toLocaleString_en_US (with_assets [btc; eth] page0) in
  children (document (renderAssets toLocaleString_en_US s) assetGrid)
    = [card toLocaleString_en_US btc; card toLocaleString_en_US eth] /\
  toFixed2 (price_change_percentage_24h eth) = "-0.00" /\
  two_decimals (toFixed2 (price_change_percentage_24h eth)) = true.
Proof.
  cbv zeta.
  destruct (render_cards toLocaleString_en_US
              (applyFiltersAndSort toLocaleString_en_US (with_assets [btc; eth] page0))
              eth (rational (price_change_percentage_24h eth)))
    as (H1 & _ & _ & H4).
  - replace (read _ _) with [btc; eth] by (vm_compute; reflexivity).
    apply list_elem_of_further, list_elem_of_here.
  - vm_compute. reflexivity.
  - vm_compute. reflexivity.
  - rewrite H1, H4. repeat split; vm_compute; reflexivity.
Defined.

(** C7 as stated fails for a change of [1e21]: [toFixed(2)] falls back
    on exponential notation, and the card shows [+1e+21%]. *)
Lemma huge_change_not_two_decimals :
  let s := applyFiltersAndSort toLocaleString_en_US (with_assets [moon] page0) in
  children (document (renderAssets toLocaleString_en_US s) assetGrid)
    = [card toLocaleString_en_US moon] /\
  change_text moon = "+1e+21%" /\
  ~ two_decimals (toFixed2 (price_change_percentage_24h moon)) = true.
Proof.
  cbv zeta. split; [vm_compute; reflexivity|]. split; [vm_compute; reflexivity|].
  vm_compute. discriminate.
Qed.

(** * Further properties of the handlers *)

(** ** Handlers that leave the list view alone *)

Lemma le_lt_false x y : le x y = true -> lt y x = false.
Proof.
  unfold le, lt.
  destruct x as [|[]|a], y as [|[]|b]; simpl; try done.
  destruct (Qcompare_cases a b) as [[E H]|[[E H]|[E H]]]; rewrite E; try done;
    destruct (Qcompare_cases b a) as [[E' H']|[[E' H']|[E' H']]]; rewrite E'; try done;
    exfalso; lra.
Qed.

Lemma toggleTheme_frame s :
  store (toggleTheme s) = store s /\ assets (toggleTheme s) = assets s /\
  displayAssets (toggleTheme s) = displayAssets s /\
  sortOrder (toggleTheme s) = sortOrder s /\ console (toggleTheme s) = console s /\
  forall id, id <> body -> id <> sunIcon -> id <> moonIcon ->
             document (toggleTheme s) id = document s id.
Proof.
  unfold toggleTheme.
  destruct (bool_decide (getAttribute body "data-theme" s = Some "light")).
  - change ("dark" =? "dark")%string with true. cbv iota.
    repeat split. intros id H1 H2 H3.
    unfold classList_remove, classList_add, setAttribute.
    rewrite !document_on_element_ne by done.
    change (document (set_localStorage ?m ?t) id) with (document t id).
    by rewrite document_on_element_ne.
  - change ("light" =? "dark")%string with false. cbv iota.
    repeat split. intros id H1 H2 H3.
    unfold classList_remove, classList_add, setAttribute.
    rewrite !document_on_element_ne by done.
    change (document (set_localStorage ?m ?t) id) with (document t id).
    by rewrite document_on_element_ne.
Qed.

Lemma fetchAssets_begin_frame s :
  store (fetchAssets_begin s) = store s /\ assets (fetchAssets_begin s) = assets s /\
  displayAssets (fetchAssets_begin s) = displayAssets s /\
  sortOrder (fetchAssets_begin s) = sortOrder s /\
  localStorage (fetchAssets_begin s) = localStorage s /\
  console (fetchAssets_begin s) = console s /\
  children (document (fetchAssets_begin s) assetGrid) = children (document s assetGrid) /\
  forall id, id <> loader -> id <> assetGrid -> id <> errorContainer ->
             document (fetchAssets_begin s) id = document s id.
Proof.
  repeat split.
  intros id H1 H2 H3.
  unfold fetchAssets_begin, hideError, showLoader, classList_add, classList_remove.
  by rewrite !document_on_element_ne.
Qed.

Lemma hideLoader_frame s :
  store (hideLoader s) = store s /\ assets (hideLoader s) = assets s /\
  displayAssets (hideLoader s) = displayAssets s /\
  sortOrder (hideLoader s) = sortOrder s /\
  localStorage (hideLoader s) = localStorage s /\
  console (hideLoader s) = console s /\
  children (document (hideLoader s) assetGrid) = children (document s assetGrid) /\
  hidden assetGrid (hideLoader s) = false /\
  forall id, id <> loader -> id <> assetGrid -> document (hideLoader s) id = document s id.
Proof.
  repeat split.
  - unfold hideLoader. apply hidden_classList_remove.
  - intros id H1 H2. unfold hideLoader, classList_add, classList_remove.
    by rewrite !document_on_element_ne.
Qed.

Lemma on_fetch_error_frame err s :
  let s' := on_fetch_error err s in
  store s' = store s /\ assets s' = assets s /\ displayAssets s' = displayAssets s /\
  sortOrder s' = sortOrder s /\ localStorage s' = localStorage s /\
  console s' = console s ++ [("Fetch error:", err)] /\
  forall id, id <> errorText -> id <> errorContainer -> document s' id = document s id.
Proof.
  cbv zeta. repeat split. intros id H1 H2.
  unfold on_fetch_error, showError, classList_remove, set_textContent.
  rewrite !document_on_element_ne by done. reflexivity.
Qed.

Lemma init_frame s :
  store (init s) = store s /\ assets (init s) = assets s /\
  displayAssets (init s) = displayAssets s /\ sortOrder (init s) = sortOrder s /\
  localStorage (init s) = localStorage s /\
  children (document (init s) assetGrid) = children (document s assetGrid) /\
  forall id, id <> body -> id <> sunIcon -> id <> moonIcon ->
             id <> loader -> id <> assetGrid -> id <> errorContainer ->
             document (init s) id = document s id.
Proof.
  unfold init.
  set (t := if bool_decide (localStorage s !! "highlite-theme" = Some "dark") then _ else s).
  destruct (fetchAssets_begin_frame t) as (H1 & H2 & H3 & H4 & H5 & _ & H7 & H8).
  assert (Ht : store t = store s /\ assets t = assets s /\ displayAssets t = displayAssets s /\
               sortOrder t = sortOrder s /\ localStorage t = localStorage s /\
               forall id, id <> body -> id <> sunIcon -> id <> moonIcon ->
                          document t id = document s id).
  { unfold t. destruct (bool_decide _); [|done].
    repeat split. intros id I1 I2 I3.
    unfold classList_remove, classList_add, setAttribute.
    by rewrite !document_on_element_ne. }
  destruct Ht as (T1 & T2 & T3 & T4 & T5 & T6).
  rewrite H1, H2, H3, H4, H5, H7, T1, T2, T3, T4, T5.
  repeat split.
  - by rewrite T6.
  - intros id I1 I2 I3 I4 I5 I6. rewrite H8 by done. by apply T6.
Qed.

(** ** The view stays in sync under every event *)

Section Sync.
Variable toLocaleString : number -> string.

Abbreviation apply := (applyFiltersAndSort toLocaleString).
Abbreviation in_sync := (view_in_sync toLocaleString).

(** A handler that leaves the lists, the mode, the two inputs, the label
    and the children of the grid alone keeps the view in sync. *)
Lemma view_in_sync_frame s t :
  store t = store s -> assets t = assets s -> displayAssets t = displayAssets s ->
  sortOrder t = sortOrder s ->
  document t minPriceInput = document s minPriceInput ->
  document t maxPriceInput = document s maxPriceInput ->
  document t sortLabel = document s sortLabel ->
  children (document t assetGrid) = children (document s assetGrid) ->
  in_sync s -> in_sync t.
Proof.
  intros Hst Ha Hd Ho Hmin Hmax Hl Hc (Hlive & Hsync & Hlabel & Hgrid).
  assert (Hr : forall r, read r t = read r s) by (intros r; unfold read; by rewrite Hst).
  unfold view_in_sync. rewrite Ha, Hst, Hd, Ho, Hl, Hc, !Hr.
  repeat split; try done.
  rewrite Hsync. symmetry. apply display_determined.
  - done.
  - unfold min_bound. by rewrite Hmin.
  - unfold max_bound. by rewrite Hmax.
  - by rewrite Ha, Hr.
Qed.

(** A run of the engine on a page with the right label puts the view
    in sync. *)
Lemma view_in_sync_apply t :
  (assets t < length (store t))%nat ->
  textContent (document t sortLabel) =
    match sortOrder t with
    | default => "Sort: Default"
    | desc => "Sort: High to Low"
    | asc => "Sort: Low to High"
    end ->
  in_sync (apply t).
Proof.
  intros Hlive Hlabel.
  destruct (applyFiltersAndSort_keeps toLocaleString t Hlive)
    as (L & _ & _ & _ & Ho & _ & _ & Hl).
  destruct (applyFiltersAndSort_spec toLocaleString t) as (_ & _ & _ & _ & _ & _ & _ & _ & Hc).
  unfold view_in_sync. rewrite Ho, Hl.
  repeat split; try done.
  symmetry. by apply applyFiltersAndSort_idem_display.
Qed.

Lemma dispatch_in_sync e s : in_sync s -> in_sync (dispatch toLocaleString e s).
Proof.
  intros Hs. pose proof Hs as (Hlive & _ & Hlabel & _).
  destruct e as [text|text| | | | |r]; simpl dispatch.
  - apply view_in_sync_apply; [exact Hlive|].
    unfold set_value. by rewrite document_on_element_ne.
  - apply view_in_sync_apply; [exact Hlive|].
    unfold set_value. by rewrite document_on_element_ne.
  - rewrite clearFilters_unfold. apply view_in_sync_apply; [exact Hlive|].
    unfold set_textContent. by rewrite document_on_element_eq.
  - rewrite cycleSort_unfold. cbv zeta. apply view_in_sync_apply; [exact Hlive|].
    unfold set_textContent. rewrite document_on_element_eq.
    change (sortOrder (on_element _ _ (set_sortOrder ?o _))) with o.
    by destruct (sortOrder s).
  - destruct (toggleTheme_frame s) as (H1 & H2 & H3 & H4 & _ & H6).
    apply (view_in_sync_frame s); try done; try (by apply H6); by rewrite H6.
  - destruct (init_frame s) as (H1 & H2 & H3 & H4 & _ & H6 & H7).
    apply (view_in_sync_frame s); try done; by apply H7.
  - unfold fetchAssets_settle.
    set (t := match r with Some _ => _ | None => _ end).
    assert (Ht : in_sync t).
    { unfold t. destruct r as [resp|].
      - destruct (negb (ok resp)).
        + destruct (on_fetch_error_frame
                      (Error ("API returned " +:+ decimal_digits (status resp) +:+ ": "
                              +:+ statusText resp)) s)
            as (H1 & H2 & H3 & H4 & _ & _ & H7).
          apply (view_in_sync_frame s); try done; try (by apply H7); by rewrite H7.
        + destruct (json resp) as [data|].
          * change (new_array data s) with (length (store s), set_store (store s ++ [data]) s).
            cbv beta iota zeta. apply view_in_sync_apply; [|exact Hlabel].
            simpl. rewrite length_app. simpl. lia.
          * destruct (on_fetch_error_frame SyntaxError s) as (H1 & H2 & H3 & H4 & _ & _ & H7).
            apply (view_in_sync_frame s); try done; try (by apply H7); by rewrite H7.
      - destruct (on_fetch_error_frame TypeError s) as (H1 & H2 & H3 & H4 & _ & _ & H7).
        apply (view_in_sync_frame s); try done; try (by apply H7); by rewrite H7. }
    destruct (hideLoader_frame t) as (H1 & H2 & H3 & H4 & _ & _ & H7 & _ & H9).
    apply (view_in_sync_frame t); try done; by apply H9.
Qed.

Lemma run_events_in_sync es s : in_sync s -> in_sync (run_events toLocaleString es s).
Proof.
  revert s. induction es as [|e es IH]; intros s Hs; simpl; [exact Hs|].
  apply IH. by apply dispatch_in_sync.
Qed.

Lemma in_sync_display_invariant s : in_sync s -> display_invariant s.
Proof.
  intros (_ & Hsync & _) a Ha. rewrite Hsync in Ha.
  apply applyFiltersAndSort_elem in Ha as [Hin Hr].
  split; [done|]. unfold in_range in Hr. by apply andb_true_iff in Hr.
Qed.

(** X1: whatever events arrive, in whatever order (edits of the two
    price fields, clicks on clear, sort and theme, page load, a request
    settling with any outcome), a view that is in sync stays in sync:
    the display list is the engine's result for the current inputs, mode
    and base list, the label names the mode, and the grid shows the
    display list; in particular every asset shown is in the base list
    and within the bounds in the inputs. *)
Theorem events_keep_view_in_sync (es : list event) (s : page) :
  in_sync s ->
  in_sync (run_events toLocaleString es s) /\
  display_invariant (run_events toLocaleString es s).
Proof.
  intros Hs. pose proof (run_events_in_sync es s Hs) as H.
  split; [exact H|]. by apply in_sync_display_invariant.
Qed.

End Sync.

(** ** Clearing, sorting and bounds *)

Lemma in_range_no_bounds a : in_range zero posInf a = ge (current_price a) zero.
Proof. unfold in_range. by destruct (current_price a) as [|[]|q]; simpl; rewrite ?andb_true_r. Qed.

Lemma List_filter_ext (p q : asset -> bool) l :
  (forall a, p a = q a) -> List.filter p l = List.filter q l.
Proof. intros H. induction l as [|a l IH]; simpl; [done|]. by rewrite H, IH. Qed.

Lemma List_filter_none (p : asset -> bool) l :
  (forall a, p a = false) -> List.filter p l = [].
Proof. intros H. induction l as [|a l IH]; simpl; [done|]. by rewrite H. Qed.

Section Engine2.
Variable toLocaleString : number -> string.

Abbreviation apply := (applyFiltersAndSort toLocaleString).

(** X2: [clearFilters] empties both inputs, selects the default mode
    and its label, and shows the base list in its own order, less the
    assets whose price is not [>= 0]. *)
Theorem clearFilters_resets (s : page) :
  let s' := clearFilters toLocaleString s in
  value (document s' minPriceInput) = "" /\
  value (document s' maxPriceInput) = "" /\
  sortOrder s' = default /\
  textContent (document s' sortLabel) = "Sort: Default" /\
  read (displayAssets s') s' =
    List.filter (fun a => ge (current_price a) zero) (read (assets s) s) /\
  children (document s' assetGrid) = rendered toLocaleString (read (displayAssets s') s').
Proof.
  cbv zeta. rewrite clearFilters_unfold.
  set (t := set_textContent _ _ _).
  destruct (applyFiltersAndSort_spec toLocaleString t)
    as (Hd & _ & _ & Ho & _ & _ & Hdoc & _ & Hc).
  assert (Hmin : min_bound t = zero) by (by apply min_bound_absent).
  assert (Hmax : max_bound t = posInf) by (by apply max_bound_absent).
  assert (Hdisp : read (displayAssets (apply t)) (apply t) =
                  List.filter (fun a => ge (current_price a) zero) (read (assets s) s)).
  { rewrite Hd, Hmin, Hmax. change (sortOrder t) with default. cbv iota.
    change (read (assets t) t) with (read (assets s) s).
    apply List_filter_ext, in_range_no_bounds. }
  rewrite !Hdoc by done. rewrite Ho, Hc.
  repeat split; try done.
Qed.

(** X3: for any bounds, on a base list of binary64 prices, ascending
    and descending mode show exactly the assets the default mode shows
    (those within the bounds), ordered by price, ties in base-list
    order. *)
Theorem sorted_within_bounds (s : page) :
  Forall (fun a => binary64 (current_price a) = true) (read (assets s) s) ->
  let kept := List.filter (fun a => ge (current_price a) (min_bound s) &&
                                    le (current_price a) (max_bound s))
                          (read (assets s) s) in
  let plain := apply (set_sortOrder default s) in
  let up := apply (set_sortOrder asc s) in
  let down := apply (set_sortOrder desc s) in
  read (displayAssets plain) plain = kept /\
  (read (displayAssets up) up ≡ₚ kept /\
   StronglySorted (fun a b => le (current_price a) (current_price b) = true)
                  (read (displayAssets up) up) /\
   forall v, List.filter (fun a => eqb (current_price a) v) (read (displayAssets up) up)
             = List.filter (fun a => eqb (current_price a) v) kept) /\
  (read (displayAssets down) down ≡ₚ kept /\
   StronglySorted (fun a b => ge (current_price a) (current_price b) = true)
                  (read (displayAssets down) down) /\
   forall v, List.filter (fun a => eqb (current_price a) v) (read (displayAssets down) down)
             = List.filter (fun a => eqb (current_price a) v) kept).
Proof.
  intros Hdata. cbv zeta.
  set (kept := List.filter _ _).
  set (ok := fun a : asset =>
               binary64 (current_price a) = true /\ current_price a <> NaN).
  assert (Hok : Forall ok kept).
  { apply Forall_forall. intros a Ha. apply List_filter_elem_of in Ha as [Hin Hr].
    rewrite Forall_forall in Hdata. split; [by apply Hdata|].
    apply andb_true_iff in Hr as [Hr _]. by apply ge_not_NaN in Hr. }
  assert (Hspec : forall o,
            read (displayAssets (apply (set_sortOrder o s))) (apply (set_sortOrder o s)) =
            match o with
            | default => kept
            | asc => sorted_by by_price_asc kept
            | desc => sorted_by by_price_desc kept
            end).
  { intros o.
    destruct (applyFiltersAndSort_spec toLocaleString (set_sortOrder o s)) as (Hd & _).
    exact Hd. }
  rewrite !Hspec. split; [done|]. split.
  - split; [apply sorted_by_Permutation|]. split.
    + apply (sorted_by_sorted _ _ ok); [| | |exact Hok].
      * intros a b c _ _ _. apply le_trans.
      * intros a b [Ha _] [Hb _]. rewrite by_price_asc_gt by done. apply gt_true_le.
      * intros a b [Ha Na] [Hb Nb]. rewrite by_price_asc_gt by done. by apply gt_false_le.
    + intros v. apply sorted_by_filter. intros x y Hx Hy.
      apply sub_eq. by apply (eqb_trans_sym _ _ v).
  - split; [apply sorted_by_Permutation|]. split.
    + apply (sorted_by_sorted _ _ ok); [| | |exact Hok].
      * intros a b c _ _ _. apply ge_trans.
      * intros a b [Ha _] [Hb _]. rewrite by_price_desc_gt by done.
        rewrite ge_le. apply gt_true_le.
      * intros a b [Ha Na] [Hb Nb]. rewrite by_price_desc_gt by done.
        rewrite ge_le. by apply gt_false_le.
    + intros v. apply sorted_by_filter. intros x y Hx Hy.
      apply sub_eq. by apply (eqb_trans_sym _ _ v).
Qed.

(** X4: when the upper bound in force lies below the lower one, no
    asset passes: the display list is empty in every mode and the grid
    holds the no-results message alone. *)
Theorem crossed_bounds_empty (s : page) :
  lt (max_bound s) (min_bound s) = true ->
  read (displayAssets (apply s)) (apply s) = [] /\
  children (document (apply s) assetGrid) = [Markup no_results_markup].
Proof.
  intros Hx.
  destruct (applyFiltersAndSort_spec toLocaleString s)
    as (Hd & _ & _ & _ & _ & _ & _ & _ & Hc).
  assert (Hnone : List.filter (in_range (min_bound s) (max_bound s)) (read (assets s) s) = []).
  { apply List_filter_none. intros a. unfold in_range.
    destruct (ge (current_price a) (min_bound s)) eqn:E1; [|done].
    destruct (le (current_price a) (max_bound s)) eqn:E2; [|done].
    rewrite ge_le in E1. pose proof (le_trans _ _ _ E1 E2) as H.
    apply le_lt_false in H. congruence. }
  rewrite Hnone in Hd.
  assert (Hempty : read (displayAssets (apply s)) (apply s) = []).
  { rewrite Hd. by destruct (sortOrder s). }
  split; [exact Hempty|]. by rewrite Hc, Hempty.
Qed.

End Engine2.

(** ** Theme across toggles and reloads *)

Lemma init_with_saved_dark s :
  localStorage s !! "highlite-theme" = Some "dark" ->
  getAttribute body "data-theme" (init s) = Some "dark" /\
  hidden sunIcon (init s) = true /\ hidden moonIcon (init s) = false.
Proof.
  intros H. unfold init. rewrite bool_decide_eq_true_2 by done.
  set (t := classList_remove moonIcon "hidden" _).
  destruct (fetchAssets_begin_frame t) as (_ & _ & _ & _ & _ & _ & _ & B8).
  unfold getAttribute, hidden. rewrite !B8 by done.
  split; [|split].
  - unfold t, classList_remove, classList_add.
    rewrite !document_on_element_ne by done.
    apply (getAttribute_setAttribute body "data-theme").
  - unfold t, classList_remove. rewrite document_on_element_ne by done.
    apply (hidden_classList_add sunIcon).
  - apply (hidden_classList_remove moonIcon).
Qed.

(** X5: after one call of [toggleTheme], from any page, the theme is
    settled: attribute and stored value are both ["dark"] or both
    ["light"], the sun icon is hidden exactly in dark and the moon icon
    exactly in light; from then on two more calls change nothing of
    that. *)
Theorem toggleTheme_settles (s : page) :
  let s1 := toggleTheme s in
  let s3 := toggleTheme (toggleTheme s1) in
  (exists dark : bool,
     getAttribute body "data-theme" s1 = Some (if dark then "dark" else "light") /\
     localStorage s1 !! "highlite-theme" = Some (if dark then "dark" else "light") /\
     hidden sunIcon s1 = dark /\ hidden moonIcon s1 = negb dark) /\
  getAttribute body "data-theme" s3 = getAttribute body "data-theme" s1 /\
  localStorage s3 !! "highlite-theme" = localStorage s1 !! "highlite-theme" /\
  hidden sunIcon s3 = hidden sunIcon s1 /\
  hidden moonIcon s3 = hidden moonIcon s1.
Proof.
  cbv zeta.
  destruct (toggleTheme_spec s) as (A1 & S1 & I1 & M1).
  destruct (toggleTheme_spec (toggleTheme s)) as (A2 & S2 & I2 & M2).
  destruct (toggleTheme_spec (toggleTheme (toggleTheme s))) as (A3 & S3 & I3 & M3).
  rewrite A2 in A3, S3, I3, M3. rewrite A1 in A2, S2, I2, M2, A3, S3, I3, M3.
  rewrite A3, S3, I3, M3, A1, S1, I1, M1.
  destruct (bool_decide (getAttribute body "data-theme" s = Some "light")).
  - split; [by exists true|]. done.
  - split; [by exists false|]. done.
Qed.

(** X6: the theme survives a reload.  Let [d] be the page as loaded
    again (sun icon shown, moon icon hidden, no dark attribute in the
    markup) with the storage [toggleTheme] left behind; after [init]
    the page is dark exactly when it was dark before, and both icons
    are as they were. *)
Theorem theme_survives_reload (s d : page) :
  localStorage d = localStorage (toggleTheme s) ->
  getAttribute body "data-theme" d <> Some "dark" ->
  hidden sunIcon d = false ->
  hidden moonIcon d = true ->
  bool_decide (getAttribute body "data-theme" (init d) = Some "dark")
    = bool_decide (getAttribute body "data-theme" (toggleTheme s) = Some "dark") /\
  hidden sunIcon (init d) = hidden sunIcon (toggleTheme s) /\
  hidden moonIcon (init d) = hidden moonIcon (toggleTheme s).
Proof.
  intros Hst Hattr Hsun Hmoon.
  destruct (toggleTheme_spec s) as (A1 & S1 & I1 & M1).
  rewrite A1, I1, M1.
  destruct (bool_decide (getAttribute body "data-theme" s = Some "light")).
  - assert (Hd : localStorage d !! "highlite-theme" = Some "dark") by (by rewrite Hst, S1).
    destruct (init_with_saved_dark d Hd) as (-> & -> & ->). done.
  - assert (Hd : localStorage d !! "highlite-theme" <> Some "dark")
      by (rewrite Hst, S1; discriminate).
    destruct (init_without_saved_dark d Hd) as (-> & _ & -> & ->).
    rewrite Hsun, Hmoon. rewrite bool_decide_eq_false_2 by done. done.
Qed.

(** ** Fetching: what the user sees *)

Section FetchView.
Variable toLocaleString : number -> string.

Abbreviation apply := (applyFiltersAndSort toLocaleString).

(** X7: after a fetch that succeeds, from any page (also one showing
    the error of an earlier failure), the loader is hidden, the grid is
    shown, the error banner is hidden, nothing is logged, and the
    display list is the received list put through the bounds and mode
    the page had, which the grid shows. *)
Theorem successful_fetch (s : page) (data : list asset) (code : Z) (text : string) :
  let s' := fetchAssets toLocaleString (Some (mkResponse true code text (Some data))) s in
  let kept := List.filter (fun a => ge (current_price a) (min_bound s) &&
                                    le (current_price a) (max_bound s)) data in
  hidden loader s' = true /\
  hidden assetGrid s' = false /\
  hidden errorContainer s' = true /\
  console s' = console s /\
  read (displayAssets s') s' =
    match sortOrder s with
    | default => kept
    | asc => sorted_by by_price_asc kept
    | desc => sorted_by by_price_desc kept
    end /\
  children (document s' assetGrid) = rendered toLocaleString (read (displayAssets s') s').
Proof.
  cbv zeta. unfold fetchAssets, fetchAssets_settle. simpl negb. cbv iota.
  simpl json. cbv iota.
  set (s1 := fetchAssets_begin s).
  change (new_array data s1) with (length (store s), set_store (store s ++ [data]) s1).
  cbv beta iota zeta.
  set (t := set_assets _ _).
  destruct (fetchAssets_begin_frame s) as (_ & _ & _ & B4 & _ & B6 & _ & B8).
  destruct (applyFiltersAndSort_spec toLocaleString t)
    as (Hd & _ & _ & _ & _ & Hcon & Hdoc & _ & Hc).
  destruct (hideLoader_frame (apply t)) as (L1 & _ & L3 & _ & _ & L6 & L7 & L8 & L9).
  assert (Hr : read (displayAssets (hideLoader (apply t))) (hideLoader (apply t))
               = read (displayAssets (apply t)) (apply t)).
  { unfold read. by rewrite L1, L3. }
  assert (Hbase : read (assets t) t = data).
  { unfold t, read; simpl. rewrite lookup_app_r by lia. by rewrite Nat.sub_diag. }
  assert (Hmin : min_bound t = min_bound s).
  { unfold min_bound. change (document t) with (document s1). unfold s1. by rewrite B8. }
  assert (Hmax : max_bound t = max_bound s).
  { unfold max_bound. change (document t) with (document s1). unfold s1. by rewrite B8. }
  split; [apply hidden_hideLoader|]. split; [exact L8|]. split; [|split; [|split]].
  - unfold hidden. rewrite L9, Hdoc by done.
    change (document t) with (document s1).
    apply (hidden_classList_add errorContainer).
  - rewrite L6, Hcon. exact B6.
  - rewrite Hr, Hd, Hbase, Hmin, Hmax. change (sortOrder t) with (sortOrder s1).
    unfold s1. by rewrite B4.
  - by rewrite L7, Hr.
Qed.

(** X8: a fetch that fails leaves on screen what was there: the
    display list, the cards of the grid, the mode, the label and both
    inputs are as before the call, the grid is shown again, and exactly
    one entry is added to the console. *)
Theorem failed_fetch_keeps_view (r : option response) (s : page) :
  match r with
  | None => True
  | Some resp => ok resp = false \/ json resp = None
  end ->
  let s' := fetchAssets toLocaleString r s in
  read (displayAssets s') s' = read (displayAssets s) s /\
  children (document s' assetGrid) = children (document s assetGrid) /\
  sortOrder s' = sortOrder s /\
  document s' sortLabel = document s sortLabel /\
  document s' minPriceInput = document s minPriceInput /\
  document s' maxPriceInput = document s maxPriceInput /\
  hidden assetGrid s' = false /\
  length (console s') = S (length (console s)).
Proof.
  intros Hfail. cbv zeta. unfold fetchAssets.
  set (s1 := fetchAssets_begin s).
  assert (Herr : exists err,
            fetchAssets_settle toLocaleString r s1 = hideLoader (on_fetch_error err s1)).
  { unfold fetchAssets_settle. destruct r as [resp|]; [|by eexists].
    destruct Hfail as [Hok|Hjson].
    - rewrite Hok. by eexists.
    - destruct (ok resp); simpl; [|by eexists]. rewrite Hjson. by eexists. }
  destruct Herr as [err ->].
  destruct (fetchAssets_begin_frame s) as (B1 & B2 & B3 & B4 & _ & B6 & B7 & B8).
  destruct (on_fetch_error_frame err s1) as (E1 & E2 & E3 & E4 & _ & E6 & E7).
  destruct (hideLoader_frame (on_fetch_error err s1))
    as (L1 & L2 & L3 & L4 & _ & L6 & L7 & L8 & L9).
  unfold read. rewrite L1, L3, L4, L6, L7, !L9 by done.
  rewrite E1, E3, E4, E6, !E7 by done.
  unfold s1. rewrite B1, B3, B4, B6, B7, !B8 by done.
  repeat split; try done.
  rewrite length_app. simpl. lia.
Qed.

End FetchView.

(** ** The theme under every event *)

Section ThemeEvents.
Variable toLocaleString : number -> string.

Lemma applyFiltersAndSort_document s id :
  id <> assetGrid -> document (applyFiltersAndSort toLocaleString s) id = document s id.
Proof.
  intros H. destruct (applyFiltersAndSort_spec toLocaleString s)
    as (_ & _ & _ & _ & _ & _ & Hdoc & _).
  by apply Hdoc.
Qed.

Lemma fetchAssets_settle_document r s id :
  id <> assetGrid -> id <> loader -> id <> errorText -> id <> errorContainer ->
  document (fetchAssets_settle toLocaleString r s) id = document s id.
Proof.
  intros H1 H2 H3 H4. unfold fetchAssets_settle.
  destruct (hideLoader_frame
              match r with
              | Some resp =>
                  if negb (ok resp)
                  then on_fetch_error
                         (Error ("API returned " +:+ decimal_digits (status resp) +:+ ": "
                                 +:+ statusText resp)) s
                  else match json resp with
                       | Some data =>
                           let '(r0, s0) := new_array data s in
                           applyFiltersAndSort toLocaleString (set_assets r0 s0)
                       | None => on_fetch_error SyntaxError s
                       end
              | None => on_fetch_error TypeError s
              end) as (_ & _ & _ & _ & _ & _ & _ & _ & L9).
  rewrite L9 by done.
  destruct r as [resp|].
  - destruct (negb (ok resp)).
    + by apply on_fetch_error_frame.
    + destruct (json resp) as [data|].
      * change (new_array data s) with (length (store s), set_store (store s ++ [data]) s).
        cbv beta iota zeta. by rewrite applyFiltersAndSort_document.
      * by apply on_fetch_error_frame.
  - by apply on_fetch_error_frame.
Qed.

Lemma dispatch_theme_frame e s id :
  e <> ClickTheme -> e <> DOMContentLoaded ->
  id = body \/ id = sunIcon \/ id = moonIcon ->
  document (dispatch toLocaleString e s) id = document s id.
Proof.
  intros He1 He2 Hid.
  assert (Hg : id <> assetGrid /\ id <> loader /\ id <> errorText /\ id <> errorContainer /\
               id <> minPriceInput /\ id <> maxPriceInput /\ id <> sortLabel)
    by (destruct Hid as [-> | [-> | ->]]; repeat split; discriminate).
  destruct Hg as (G1 & G2 & G3 & G4 & G5 & G6 & G7).
  destruct e as [text|text| | | | |r]; simpl dispatch; try done.
  - rewrite applyFiltersAndSort_document by done.
    unfold set_value. by rewrite document_on_element_ne.
  - rewrite applyFiltersAndSort_document by done.
    unfold set_value. by rewrite document_on_element_ne.
  - rewrite clearFilters_unfold, applyFiltersAndSort_document by done.
    unfold set_textContent, set_value. rewrite document_on_element_ne by done.
    change (document (set_sortOrder ?o ?t) id) with (document t id).
    by rewrite !document_on_element_ne.
  - rewrite cycleSort_unfold. cbv zeta. rewrite applyFiltersAndSort_document by done.
    unfold set_textContent. by rewrite document_on_element_ne.
  - by apply fetchAssets_settle_document.
Qed.

(** X9: the theme stays coherent under every event: if the dark
    attribute is present exactly when the sun icon is hidden, and
    exactly one icon is hidden, the same holds after any events in any
    order. *)
Theorem events_keep_theme_coherent (es : list event) (s : page) :
  theme_coherent s -> theme_coherent (run_events toLocaleString es s).
Proof.
  revert s. induction es as [|e es IH]; intros s Hs; simpl; [exact Hs|].
  apply IH. clear IH. destruct Hs as [Hattr Hmoon].
  assert (Hframe : e <> ClickTheme -> e <> DOMContentLoaded ->
                   theme_coherent (dispatch toLocaleString e s)).
  { intros He1 He2. unfold theme_coherent, getAttribute, hidden.
    rewrite !(dispatch_theme_frame e s) by tauto. done. }
  destruct e as [text|text| | | | |r]; try (apply Hframe; discriminate).
  - simpl. destruct (toggleTheme_spec s) as (A & _ & I & M). unfold theme_coherent.
    rewrite A, I, M.
    by destruct (bool_decide (getAttribute body "data-theme" s = Some "light")).
  - simpl. unfold theme_coherent.
    destruct (decide (localStorage s !! "highlite-theme" = Some "dark")) as [Hd|Hd].
    + destruct (init_with_saved_dark s Hd) as (-> & -> & ->). done.
    + destruct (init_without_saved_dark s Hd) as (-> & _ & -> & ->). done.
Qed.

(** X10: on a page whose display list is up to date, [cycleSort] never
    adds or drops an asset: the display list after the call is a
    permutation of the one before. *)
Theorem cycleSort_permutes (s : page) :
  read (displayAssets s) s =
    read (displayAssets (applyFiltersAndSort toLocaleString s))
         (applyFiltersAndSort toLocaleString s) ->
  read (displayAssets (cycleSort toLocaleString s)) (cycleSort toLocaleString s)
  ≡ₚ read (displayAssets s) s.
Proof.
  intros Hsync. rewrite Hsync, cycleSort_unfold. cbv zeta.
  set (t := set_textContent _ _ _).
  destruct (applyFiltersAndSort_spec toLocaleString t) as (-> & _).
  destruct (applyFiltersAndSort_spec toLocaleString s) as (-> & _).
  assert (Hk : List.filter (in_range (min_bound t) (max_bound t)) (read (assets t) t)
               = List.filter (in_range (min_bound s) (max_bound s)) (read (assets s) s)).
  { destruct (relabel_frame
                (match sortOrder s with default => desc | desc => asc | asc => default end)
                (match match sortOrder s with default => desc | desc => asc | asc => default end
                 with
                 | desc => "Sort: High to Low"
                 | asc => "Sort: Low to High"
                 | default => "Sort: Default"
                 end) s) as (_ & R2 & R3 & R4).
    fold t in R2, R3, R4. by rewrite R2, R3, R4. }
  rewrite Hk.
  destruct (sortOrder t), (sortOrder s); by rewrite ?sorted_by_Permutation.
Qed.

End ThemeEvents.

(** ** The further properties at concrete pages *)

Lemma events_keep_view_in_sync_witness :
  let s := clearFilters toLocaleString_en_US (with_assets market page0) in
  let es := [InputMin "1"; ClickSort; ClickTheme; FetchSettled None; InputMax "3000"] in
  let s' := run_events toLocaleString_en_US es s in
  view_in_sync toLocaleString_en_US s' /\
  display_invariant s' /\
  read (displayAssets s') s' = [eth; usdt; usdc] /\
  textContent (document s' sortLabel) = "Sort: High to Low".
Proof.
  cbv zeta.
  assert (Hs : view_in_sync toLocaleString_en_US
                 (clearFilters toLocaleString_en_US (with_assets market page0))).
  { unfold view_in_sync. split; [vm_compute; lia|].
    split; [vm_compute; reflexivity|]. split; vm_compute; reflexivity. }
  destruct (events_keep_view_in_sync toLocaleString_en_US
              [InputMin "1"; ClickSort; ClickTheme; FetchSettled None; InputMax "3000"]
              (clearFilters toLocaleString_en_US (with_assets market page0)) Hs)
    as (H1 & H2).
  split; [exact H1|]. split; [exact H2|]. split; vm_compute; reflexivity.
Defined.

Lemma sorted_within_bounds_witness :
  let s := with_inputs "1" "3000" (with_assets market page0) in
  let up := applyFiltersAndSort toLocaleString_en_US (set_sortOrder asc s) in
  let down := applyFiltersAndSort toLocaleString_en_US (set_sortOrder desc s) in
  read (displayAssets up) up = [usdt; usdc; eth] /\
  read (displayAssets down) down = [eth; usdt; usdc] /\
  read (displayAssets up) up ≡ₚ [eth; usdt; usdc] /\
  read (displayAssets down) down ≡ₚ [eth; usdt; usdc].
Proof.
  cbv zeta. split; [vm_compute; reflexivity|]. split; [vm_compute; reflexivity|].
  assert (Hdata : Forall (fun a => binary64 (current_price a) = true)
                    (read (assets (with_inputs "1" "3000" (with_assets market page0)))
                          (with_inputs "1" "3000" (with_assets market page0)))).
  { change (read _ _) with market. unfold market.
    repeat (apply List.Forall_cons; [vm_compute; reflexivity|]).
    apply List.Forall_nil. }
  destruct (sorted_within_bounds toLocaleString_en_US
              (with_inputs "1" "3000" (with_assets market page0)) Hdata)
    as (_ & (Hup & _) & (Hdown & _)).
  split; [exact Hup|exact Hdown].
Defined.

Lemma crossed_bounds_empty_witness :
  let s := with_inputs "10" "5" (with_assets market page0) in
  let s' := applyFiltersAndSort toLocaleString_en_US s in
  min_bound s = Fin 10 /\ max_bound s = Fin 5 /\
  read (displayAssets s') s' = [] /\
  children (document s' assetGrid) = [Markup no_results_markup].
Proof.
  cbv zeta. split; [vm_compute; reflexivity|]. split; [vm_compute; reflexivity|].
  apply (crossed_bounds_empty toLocaleString_en_US
           (with_inputs "10" "5" (with_assets market page0))).
  vm_compute. reflexivity.
Defined.

Lemma theme_survives_reload_witness :
  let s := toggleTheme fresh_page in
  let d := set_localStorage (localStorage (toggleTheme s)) fresh_page in
  getAttribute body "data-theme" (toggleTheme s) = Some "dark" /\
  bool_decide (getAttribute body "data-theme" (init d) = Some "dark") = true /\
  hidden sunIcon (init d) = true /\
  hidden moonIcon (init d) = false.
Proof.
  cbv zeta. split; [vm_compute; reflexivity|].
  destruct (theme_survives_reload (toggleTheme fresh_page)
              (set_localStorage (localStorage (toggleTheme (toggleTheme fresh_page)))
                                fresh_page))
    as (H1 & H2 & H3).
  - reflexivity.
  - discriminate.
  - vm_compute. reflexivity.
  - vm_compute. reflexivity.
  - rewrite H1, H2, H3. repeat split; vm_compute; reflexivity.
Defined.

Lemma failed_fetch_keeps_view_witness :
  let s := clearFilters toLocaleString_en_US (with_assets market page0) in
  let s' := fetchAssets toLocaleString_en_US None s in
  read (displayAssets s') s' = market /\
  children (document s' assetGrid) = map (card toLocaleString_en_US) market /\
  hidden assetGrid s' = false /\
  console s' = [("Fetch error:", TypeError)].
Proof.
  cbv zeta.
  destruct (failed_fetch_keeps_view toLocaleString_en_US None
              (clearFilters toLocaleString_en_US (with_assets market page0)) I)
    as (H1 & H2 & _ & _ & _ & _ & H7 & _).
  rewrite H1, H2, H7. repeat split; vm_compute; reflexivity.
Defined.

Lemma events_keep_theme_coherent_witness :
  let es := [ClickTheme; ClickSort; DOMContentLoaded; ClickTheme] in
  let s' := run_events toLocaleString_en_US es fresh_page in
  theme_coherent fresh_page /\ theme_coherent s' /\
  getAttribute body "data-theme" s' = Some "dark".
Proof.
  cbv zeta.
  assert (Hs : theme_coherent fresh_page) by (split; vm_compute; reflexivity).
  split; [exact Hs|]. split.
  - by apply (events_keep_theme_coherent toLocaleString_en_US).
  - vm_compute. reflexivity.
Defined.

Lemma cycleSort_permutes_witness :
  let s := clearFilters toLocaleString_en_US (with_assets market page0) in
  let s' := cycleSort toLocaleString_en_US s in
  read (displayAssets s) s = market /\
  read (displayAssets s') s' ≡ₚ market.
Proof.
  cbv zeta.
  assert (Hs : read (displayAssets (clearFilters toLocaleString_en_US (with_assets market page0)))
                    (clearFilters toLocaleString_en_US (with_assets market page0)) = market)
    by (vm_compute; reflexivity).
  split; [exact Hs|].
  rewrite <- Hs at 2.
  apply (cycleSort_permutes toLocaleString_en_US). vm_compute. reflexivity.
Defined.

(** ** Where the code departs from its description *)

Example parseFloat_no_break_space :
  parseFloat (String (ascii_of_nat 160) "5") = Fin 5.
Proof. reflexivity. Qed.

Section Departures.
Variable toLocaleString : number -> string.

(** C1, at the inputs where the code departs from it: with the bound
    inputs ["-1"] and ["0"], both numeric, and default mode, no asset
    of the base list has [-1 <= current_price <= 0], yet the display
    list is the whole base list: the maximum 0 is dropped by
    [parseFloat(..) || Infinity]. *)
Theorem default_sort_zero_max :
  let s := with_inputs "-1" "0" (with_assets [btc; usdt] page0) in
  let s' := applyFiltersAndSort toLocaleString s in
  sortOrder s = default /\
  parseFloat "-1" = Fin (-1) /\
  parseFloat "0" = Fin 0 /\
  List.filter (fun a => ge (current_price a) (parseFloat "-1") &&
                        le (current_price a) (parseFloat "0")) [btc; usdt] = [] /\
  read (displayAssets s') s' = [btc; usdt].
Proof.
  cbv zeta. split; [reflexivity|]. split; [vm_compute; reflexivity|].
  split; [reflexivity|]. split; [vm_compute; reflexivity|].
  destruct (applyFiltersAndSort_spec toLocaleString
              (with_inputs "-1" "0" (with_assets [btc; usdt] page0))) as (-> & _).
  vm_compute. reflexivity.
Qed.

End Departures.

(** C3, at the page where the code departs from it: no theme saved,
    [init] has applied none, the page shows the light theme (sun icon
    shown, moon icon hidden).  The first call of [toggleTheme] does not
    flip the theme: it selects light again and both icons stay as they
    were, whereas the same page carrying the attribute ["light"] goes
    to dark.  So two calls end in dark, with the stored value ["dark"]
    and the icons swapped, instead of the state before the first
    call. *)
Theorem toggle_on_fresh_page :
  let s := init fresh_page in
  let s1 := toggleTheme s in
  let s2 := toggleTheme s1 in
  let marked := toggleTheme (setAttribute body "data-theme" "light" s) in
  (getAttribute body "data-theme" s = None /\
   localStorage s !! "highlite-theme" = None /\
   hidden sunIcon s = false /\ hidden moonIcon s = true) /\
  (getAttribute body "data-theme" s1 = Some "light" /\
   localStorage s1 !! "highlite-theme" = Some "light" /\
   hidden sunIcon s1 = false /\ hidden moonIcon s1 = true) /\
  (getAttribute body "data-theme" marked = Some "dark" /\
   hidden sunIcon marked = true /\ hidden moonIcon marked = false) /\
  (getAttribute body "data-theme" s2 = Some "dark" /\
   localStorage s2 !! "highlite-theme" = Some "dark" /\
   hidden sunIcon s2 = true /\ hidden moonIcon s2 = false) /\
  ~ (bool_decide (localStorage s2 !! "highlite-theme" = Some "dark")
       = bool_decide (localStorage s !! "highlite-theme" = Some "dark") /\
     hidden sunIcon s2 = hidden sunIcon s /\
     hidden moonIcon s2 = hidden moonIcon s).
Proof.
  cbv zeta.
  split; [repeat split; vm_compute; reflexivity|].
  split; [repeat split; vm_compute; reflexivity|].
  split; [repeat split; vm_compute; reflexivity|].
  split; [repeat split; vm_compute; reflexivity|].
  intros (_ & H & _). vm_compute in H. discriminate.
Qed.

(** C4 as stated fails on a base list with a negative price: with both
    inputs empty the lower bound is 0, so ascending and descending mode
    show [btc] alone, which is no permutation of the base list
    [debt; btc]. *)
Lemma negative_price_not_permuted :
  let s := with_assets [debt; btc] page0 in
  let up := applyFiltersAndSort toLocaleString_en_US (set_sortOrder asc s) in
  let down := applyFiltersAndSort toLocaleString_en_US (set_sortOrder desc s) in
  value (document s minPriceInput) = "" /\
  value (document s maxPriceInput) = "" /\
  read (assets s) s = [debt; btc] /\
  read (displayAssets up) up = [btc] /\
  read (displayAssets down) down = [btc] /\
  ~ read (displayAssets up) up ≡ₚ read (assets s) s /\
  ~ read (displayAssets down) down ≡ₚ read (assets s) s.
Proof.
  cbv zeta.
  assert (Hup : read (displayAssets (applyFiltersAndSort toLocaleString_en_US
                        (set_sortOrder asc (with_assets [debt; btc] page0))))
                     (applyFiltersAndSort toLocaleString_en_US
                        (set_sortOrder asc (with_assets [debt; btc] page0))) = [btc])
    by (vm_compute; reflexivity).
  assert (Hdown : read (displayAssets (applyFiltersAndSort toLocaleString_en_US
                          (set_sortOrder desc (with_assets [debt; btc] page0))))
                       (applyFiltersAndSort toLocaleString_en_US
                          (set_sortOrder desc (with_assets [debt; btc] page0))) = [btc])
    by (vm_compute; reflexivity).
  assert (Hbase : read (assets (with_assets [debt; btc] page0)) (with_assets [debt; btc] page0)
                  = [debt; btc]) by reflexivity.
  rewrite Hup, Hdown, Hbase.
  repeat (split; [reflexivity|]).
  split; intros H; apply Permutation_length in H; discriminate.
Qed.
